(** * The Streamlit front end of the LangGraph research agent

    A shallow embedding of [streamlit_app.py]: the script that Streamlit
    re-executes from top to bottom on every interaction.  Python values are
    a small inductive universe, [st.session_state] and [os.environ] are
    finite maps, and the script is written in a monad that threads both,
    records what is shown on the page and what is sent to the agent graph,
    and propagates Python exceptions.

    The agent graph ([backend.src.agent.graph]) is not part of the source:
    it is a parameter, a function that either returns a value or raises. *)

From Stdlib Require Import Ascii.
From stdpp Require Import gmap strings list fin_maps pretty.

Open Scope string_scope.
Open Scope list_scope.
Set Warnings "-register-all".

(** ** Python values and exceptions *)

Module Py.

(** Strings, integers, booleans, [None], lists, string-keyed dicts (in
    insertion order) and objects given by their class name and their data
    attributes. *)
Inductive PyVal : Type :=
| PyNone
| PyBool (b : bool)
| PyInt (n : Z)
| PyStr (s : string)
| PyList (xs : list PyVal)
| PyDict (kvs : list (string * PyVal))
| PyObj (cls : string) (attrs : list (string * PyVal)).

(** The exception classes the script can meet.  [KeyboardInterrupt],
    [SystemExit] and Streamlit's [RerunException] derive from
    [BaseException] only; [ModuleNotFoundError] derives from [ImportError];
    the others derive from [Exception]. *)
Inductive ExnClass : Type :=
| ImportError
| ModuleNotFoundError
| KeyError
| IndexError
| TypeError
| AttributeError
| ValueError
| RuntimeError
| OtherException (name : string)
| KeyboardInterrupt
| SystemExit
| RerunException.

(** An exception instance: its class and [str(e)]. *)
Record Exn : Type := mkExn { exn_class : ExnClass; exn_msg : string }.

(** [isinstance(e, ImportError)] *)
Definition is_ImportError (e : Exn) : bool :=
  match exn_class e with
  | ImportError | ModuleNotFoundError => true
  | _ => false
  end.

(** [isinstance(e, Exception)] *)
Definition is_Exception (e : Exn) : bool :=
  match exn_class e with
  | KeyboardInterrupt | SystemExit | RerunException => false
  | _ => true
  end.

(** [isinstance(e, AttributeError)] *)
Definition is_AttributeError (e : Exn) : bool :=
  match exn_class e with
  | AttributeError => true
  | _ => false
  end.

(** The result of evaluating an expression. *)
Inductive Res (A : Type) : Type :=
| Ok (a : A)
| Err (e : Exn).
Arguments Ok {A} a.
Arguments Err {A} e.

(** [bool(v)] *)
Definition truthy (v : PyVal) : bool :=
  match v with
  | PyNone => false
  | PyBool b => b
  | PyInt n => negb (n =? 0)%Z
  | PyStr s => negb (String.eqb s "")
  | PyList xs => negb (bool_decide (length xs = 0))
  | PyDict kvs => negb (bool_decide (length kvs = 0))
  | PyObj _ _ => true
  end.

(** Lookup in an insertion-ordered string-keyed table. *)
Fixpoint assoc (k : string) (kvs : list (string * PyVal)) : option PyVal :=
  match kvs with
  | [] => None
  | (k', v) :: rest => if String.eqb k k' then Some v else assoc k rest
  end.

(** [isinstance(v, dict)] and [isinstance(v, str)] *)
Definition is_dict (v : PyVal) : bool :=
  match v with PyDict _ => true | _ => false end.

Definition is_str (v : PyVal) : bool :=
  match v with PyStr _ => true | _ => false end.

(** The double quote, and [type(v).__name__]. *)
Definition dquote : string := String (Ascii.ascii_of_nat 34) EmptyString.

Definition type_name (v : PyVal) : string :=
  match v with
  | PyNone => "NoneType"
  | PyBool _ => "bool"
  | PyInt _ => "int"
  | PyStr _ => "str"
  | PyList _ => "list"
  | PyDict _ => "dict"
  | PyObj cls _ => cls
  end.

Definition not_subscriptable (v : PyVal) : Exn :=
  mkExn TypeError ("'" +:+ type_name v +:+ "' object is not subscriptable").

Definition no_attribute (v : PyVal) (name : string) : Exn :=
  mkExn AttributeError
        ("'" +:+ type_name v +:+ "' object has no attribute '" +:+ name +:+ "'").

(** [v[k]] for a string key [k]. *)
Definition getitem (v : PyVal) (k : string) : Res PyVal :=
  match v with
  | PyDict kvs =>
      match assoc k kvs with
      | Some x => Ok x
      | None => Err (mkExn KeyError ("'" +:+ k +:+ "'"))
      end
  | PyList _ => Err (mkExn TypeError "list indices must be integers or slices, not str")
  | PyStr _ => Err (mkExn TypeError "string indices must be integers, not 'str'")
  | _ => Err (not_subscriptable v)
  end.

(** The characters of a string, each a one-character string. *)
Fixpoint chars (s : string) : list string :=
  match s with
  | EmptyString => []
  | String c rest => String c EmptyString :: chars rest
  end.

(** [v[-1]] *)
Definition getitem_last (v : PyVal) : Res PyVal :=
  match v with
  | PyList xs =>
      match last xs with
      | Some x => Ok x
      | None => Err (mkExn IndexError "list index out of range")
      end
  | PyStr s =>
      match last (chars s) with
      | Some c => Ok (PyStr c)
      | None => Err (mkExn IndexError "string index out of range")
      end
  | PyDict _ => Err (mkExn KeyError "-1")
  | _ => Err (not_subscriptable v)
  end.

(** [v.name] for a data attribute. *)
Definition getattr (v : PyVal) (name : string) : Res PyVal :=
  match v with
  | PyObj _ attrs =>
      match assoc name attrs with
      | Some x => Ok x
      | None => Err (no_attribute v name)
      end
  | _ => Err (no_attribute v name)
  end.

(** [getattr(v, name, default)] *)
Definition getattr_default (v : PyVal) (name : string) (default : PyVal) : PyVal :=
  match getattr v name with
  | Ok x => x
  | Err _ => default
  end.

(** [v.get(k, default)]: the dict method; an object whose attribute [get]
    is a data value cannot be called, anything else has no such attribute. *)
Definition not_callable (v : PyVal) : Exn :=
  mkExn TypeError ("'" +:+ type_name v +:+ "' object is not callable").

Definition dict_get (v : PyVal) (k : string) (default : PyVal) : Res PyVal :=
  match v with
  | PyDict kvs =>
      match assoc k kvs with
      | Some x => Ok x
      | None => Ok default
      end
  | PyObj _ attrs =>
      match assoc "get" attrs with
      | Some f => Err (not_callable f)
      | None => Err (no_attribute v "get")
      end
  | _ => Err (no_attribute v "get")
  end.

(** [needle in hay] on strings. *)
Fixpoint is_prefix (p s : string) : bool :=
  match p, s with
  | EmptyString, _ => true
  | String a p', String b s' => if Ascii.eqb a b then is_prefix p' s' else false
  | String _ _, EmptyString => false
  end.

Fixpoint is_substring (needle hay : string) : bool :=
  if is_prefix needle hay then true
  else match hay with
       | EmptyString => false
       | String _ rest => is_substring needle rest
       end.

(** [k in v] for a string [k]. *)
Definition contains (k : string) (v : PyVal) : Res bool :=
  match v with
  | PyDict kvs => Ok (match assoc k kvs with Some _ => true | None => false end)
  | PyList xs =>
      Ok (existsb (fun x => match x with PyStr s => String.eqb k s | _ => false end) xs)
  | PyStr s => Ok (is_substring k s)
  | _ => Err (mkExn TypeError ("argument of type '" +:+ type_name v +:+ "' is not iterable"))
  end.

(** [sep.join] of strings already extracted. *)
Fixpoint join_strings (sep : string) (ss : list string) : string :=
  match ss with
  | [] => ""
  | [s] => s
  | s :: rest => s +:+ sep +:+ join_strings sep rest
  end.

(** [repr] of a string: between double quotes when it holds a single quote
    and no double quote, between single quotes otherwise; the backslash and
    the chosen quote are escaped, tab, line feed and carriage return are
    written [\t], [\n], [\r], and the other control characters [\xhh].
    Bytes above 127 are taken to belong to printable characters and are kept
    as they are. *)
Fixpoint has_char (c : Ascii.ascii) (s : string) : bool :=
  match s with
  | EmptyString => false
  | String c' rest => Ascii.eqb c c' || has_char c rest
  end.

Definition hex_digit (n : nat) : string :=
  match String.get n "0123456789abcdef" with
  | Some c => String c EmptyString
  | None => "0"
  end.

Definition escape_char (quote c : Ascii.ascii) : string :=
  let n := Ascii.nat_of_ascii c in
  if Ascii.eqb c "\"%char then "\\"
  else if Ascii.eqb c quote then String "\"%char (String c EmptyString)
  else if Nat.eqb n 9 then "\t"
  else if Nat.eqb n 10 then "\n"
  else if Nat.eqb n 13 then "\r"
  else if Nat.ltb n 32 || Nat.eqb n 127 then
    "\x" +:+ hex_digit (Nat.div n 16) +:+ hex_digit (Nat.modulo n 16)
  else String c EmptyString.

Fixpoint escape (quote : Ascii.ascii) (s : string) : string :=
  match s with
  | EmptyString => ""
  | String c rest => escape_char quote c +:+ escape quote rest
  end.

Definition repr_str (s : string) : string :=
  let double := Ascii.ascii_of_nat 34 in
  let quote :=
    if has_char "'"%char s && negb (has_char double s) then double else "'"%char in
  String quote (escape quote s +:+ String quote EmptyString).

(** [repr(v)].  An object that defines [__repr__] is shown as the text
    stored under that name; the default is the class name between angle
    brackets (CPython adds the module and the address). *)
Fixpoint repr (v : PyVal) : string :=
  match v with
  | PyNone => "None"
  | PyBool true => "True"
  | PyBool false => "False"
  | PyInt n => pretty n
  | PyStr s => repr_str s
  | PyList xs => "[" +:+ join_strings ", " (map repr xs) +:+ "]"
  | PyDict kvs =>
      "{" +:+ join_strings ", "
                (map (fun '(k, x) => repr_str k +:+ ": " +:+ repr x) kvs) +:+ "}"
  | PyObj cls attrs =>
      match assoc "__repr__" attrs with
      | Some (PyStr text) => text
      | _ => "<" +:+ cls +:+ " object>"
      end
  end.

(** [str(v)], which is also what an f-string field [{v}] shows: the string
    itself, the text an object stores as [__str__] when it defines it, and
    [repr(v)] otherwise. *)
Definition str (v : PyVal) : string :=
  match v with
  | PyStr s => s
  | PyObj _ attrs =>
      match assoc "__str__" attrs with
      | Some (PyStr text) => text
      | _ => repr v
      end
  | _ => repr v
  end.

(** The elements [for x in v] goes through. *)
Definition iter (v : PyVal) : Res (list PyVal) :=
  match v with
  | PyList xs => Ok xs
  | PyStr s => Ok (PyStr <$> chars s)
  | PyDict kvs => Ok ((fun kv => PyStr kv.1) <$> kvs)
  | _ => Err (mkExn TypeError ("'" +:+ type_name v +:+ "' object is not iterable"))
  end.

(** The strings of a list of values, or the first element that is not a
    string, with its position counted from [i]. *)
Fixpoint all_strings (i : nat) (xs : list PyVal) : list string + (nat * PyVal) :=
  match xs with
  | [] => inl []
  | PyStr s :: rest =>
      match all_strings (S i) rest with
      | inl ss => inl (s :: ss)
      | inr bad => inr bad
      end
  | x :: _ => inr (i, x)
  end.

(** [sep.join(v)] *)
Definition str_join (sep : string) (v : PyVal) : Res string :=
  match iter v with
  | Err _ => Err (mkExn TypeError "can only join an iterable")
  | Ok xs =>
      match all_strings 0 xs with
      | inl ss => Ok (join_strings sep ss)
      | inr (i, x) =>
          Err (mkExn TypeError
                     ("sequence item " +:+ pretty i +:+ ": expected str instance, "
                      +:+ type_name x +:+ " found"))
      end
  end.

(** [s + v] for a string [s]. *)
Definition str_add (s : string) (v : PyVal) : Res string :=
  match v with
  | PyStr t => Ok (s +:+ t)
  | _ =>
      Err (mkExn TypeError
                 ("can only concatenate str (not " +:+ dquote +:+ type_name v +:+ dquote
                  +:+ ") to str"))
  end.

(** The line feed written [\n] in Python string literals. *)
Definition newline : string := String (Ascii.ascii_of_nat 10) EmptyString.

(** [HumanMessage(content=c)] *)
Definition HumanMessage (c : PyVal) : PyVal := PyObj "HumanMessage" [("content", c)].

(** [AIMessage(content=c)] *)
Definition AIMessage (c : PyVal) : PyVal := PyObj "AIMessage" [("content", c)].

End Py.

Import Py.

(** ** The page, the process and the external agent *)

Module Streamlit.

(** What one execution of the script does that can be observed: elements
    written to the page, in order, and calls to the agent graph together
    with [os.environ] as it is at the call. *)
Inductive Event : Type :=
| EvTitle (s : string)
| EvSidebarHeader (s : string)
| EvForm (key : string)
| EvSubheader (s : string)
| EvChatMessage (role : string)
| EvMarkdown (s : string)
| EvDivider
| EvError (s : string)
| EvSpinner (s : string)
| EvInvoke (input config : PyVal) (env : gmap string string).

(** The state the script reads and writes: [st.session_state] and
    [os.environ]. *)
Record World : Type := mkWorld {
  session_state : gmap string PyVal;
  environ : gmap string string
}.

(** The compiled agent graph: [graph.invoke(input, config=config)] sees its
    arguments and the process environment, and returns or raises. *)
Record Graph : Type := mkGraph {
  invoke : PyVal -> PyVal -> gmap string string -> Res PyVal
}.

(** [from backend.src.agent.graph import graph]: executing the module sees
    the process environment, and yields the graph or raises. *)
Record Backend : Type := mkBackend {
  import_graph : gmap string string -> Res Graph
}.

(** What the user has put in the widgets when the script runs: the two text
    fields, whether this run was triggered by the form's submit button, and
    the entries committed in the two sidebar number fields, if any. *)
Record Widgets : Type := mkWidgets {
  api_key : string;
  user_question : string;
  submit_button : bool;
  initial_queries_entry : option Z;
  research_loops_entry : option Z
}.

(** [st.number_input(label, min_value, max_value, value, step)] for
    integers: the widget returns [value] until the user commits an entry,
    and it does not accept an entry outside [min_value .. max_value]. *)
Definition number_input (min_value max_value value : Z) (entry : option Z) : Z :=
  match entry with
  | Some n => if bool_decide (min_value ≤ n ≤ max_value)%Z then n else value
  | None => value
  end.

(** The outcome of running a piece of the script. *)
Inductive Outcome (A : Type) : Type :=
| Returned (a : A)
| Raised (e : Exn).
Arguments Returned {A} a.
Arguments Raised {A} e.

Record Run (A : Type) : Type := mkRun {
  trace : list Event;
  world : World;
  outcome : Outcome A
}.
Arguments mkRun {A} trace world outcome.
Arguments trace {A} r.
Arguments world {A} r.
Arguments outcome {A} r.

(** Script fragments: state passing, a log of events, and exceptions. *)
Definition M (A : Type) : Type := World -> Run A.

Definition ret {A} (a : A) : M A := fun w => mkRun [] w (Returned a).

Definition bind {A B} (m : M A) (k : A -> M B) : M B :=
  fun w =>
    match m w with
    | mkRun t w' (Returned a) =>
        match k a w' with
        | mkRun t' w'' o => mkRun (t ++ t') w'' o
        end
    | mkRun t w' (Raised e) => mkRun t w' (Raised e)
    end.

Definition raise {A} (e : Exn) : M A := fun w => mkRun [] w (Raised e).

Definition emit (ev : Event) : M unit := fun w => mkRun [ev] w (Returned tt).

(** Evaluate an expression that may raise. *)
Definition eval {A} (r : Res A) : M A :=
  match r with
  | Ok a => ret a
  | Err e => raise e
  end.

(** [try: body except ...: handler]: [handler e] is [Some h] when one of the
    [except] clauses matches [e]; otherwise [e] propagates. *)
Definition try_except {A} (body : M A) (handler : Exn -> option (M A)) : M A :=
  fun w =>
    match body w with
    | mkRun t w' (Returned a) => mkRun t w' (Returned a)
    | mkRun t w' (Raised e) =>
        match handler e with
        | Some h =>
            match h w' with
            | mkRun t' w'' o => mkRun (t ++ t') w'' o
            end
        | None => mkRun t w' (Raised e)
        end
    end.

(** [for x in xs: body x] *)
Fixpoint for_each {A} (xs : list A) (body : A -> M unit) : M unit :=
  match xs with
  | [] => ret tt
  | x :: rest => bind (body x) (fun _ => for_each rest body)
  end.

(** [for i, x in enumerate(xs): body i x], counting from [i]. *)
Fixpoint for_each_indexed {A} (i : Z) (xs : list A) (body : Z -> A -> M unit) : M unit :=
  match xs with
  | [] => ret tt
  | x :: rest => bind (body i x) (fun _ => for_each_indexed (i + 1) rest body)
  end.

(** [key in st.session_state] *)
Definition in_session_state (key : string) : M bool :=
  fun w => mkRun [] w (Returned (bool_decide (is_Some (session_state w !! key)))).

(** [st.session_state.key = v] *)
Definition set_session_state (key : string) (v : PyVal) : M unit :=
  fun w => mkRun [] (mkWorld (<[key := v]> (session_state w)) (environ w)) (Returned tt).

(** [st.session_state.key] *)
Definition get_session_state (key : string) : M PyVal :=
  fun w =>
    match session_state w !! key with
    | Some v => mkRun [] w (Returned v)
    | None =>
        mkRun [] w (Raised (mkExn AttributeError
                               ("st.session_state has no attribute " +:+ key)))
    end.

(** What [os.environ[key] = value] raises, if anything: neither string may
    hold a NUL character, and the name may not be empty nor hold [=]. *)
Definition has_nul (s : string) : bool := has_char Ascii.zero s.

Definition environ_rejects (key value : string) : option Exn :=
  if has_nul key || has_nul value then
    Some (mkExn ValueError "embedded null byte")
  else if String.eqb key "" || has_char "="%char key then
    Some (mkExn ValueError "illegal environment variable name")
  else None.

(** [os.environ[key] = value] *)
Definition set_environ (key value : string) : M unit :=
  fun w =>
    match environ_rejects key value with
    | Some e => mkRun [] w (Raised e)
    | None =>
        mkRun [] (mkWorld (session_state w) (<[key := value]> (environ w))) (Returned tt)
    end.

Definition get_environ : M (gmap string string) :=
  fun w => mkRun [] w (Returned (environ w)).

(** [st.text_input(label, key=key)]: the widget's value, which Streamlit
    also stores in the session state under the widget's key. *)
Definition text_input (key value : string) : M string :=
  fun w => mkRun [] (mkWorld (<[key := PyStr value]> (session_state w)) (environ w))
             (Returned value).

(** [st.form_submit_button(label)] inside a form: whether this run was
    triggered by the button, which Streamlit also stores in the session
    state, under the key [FormSubmitter:<form key>-<label>]. *)
Definition form_submit_button (key : string) (pressed : bool) : M bool :=
  fun w => mkRun [] (mkWorld (<[key := PyBool pressed]> (session_state w)) (environ w))
             (Returned pressed).

(** [st.rerun()] stops the script by raising [RerunException], which is not
    an [Exception]. *)
Definition st_rerun : M unit := raise (mkExn RerunException "").

End Streamlit.

Import Streamlit.

Notation "'let*' x := m 'in' k" := (bind m (fun x => k))
  (at level 10, x name, m at level 100, k at level 200).
Notation "m ;; k" := (bind m (fun _ => k))
  (at level 100, k at level 200, right associativity).

(** ** The script *)

Module App.

(** Lines 5-15: create the session-state variables that do not exist. *)
Definition init_default (key : string) (v : PyVal) : M unit :=
  let* present := in_session_state key in
  if present then ret tt else set_session_state key v.

Definition init_session_state : M unit :=
  init_default "history" (PyList []) ;;
  init_default "current_answer" PyNone ;;
  init_default "current_sources" PyNone ;;
  init_default "current_queries" PyNone ;;
  init_default "current_reflections" PyNone.

(** Lines 43-49: one element of an entry's sources. *)
Definition render_source (source_item : PyVal) : M unit :=
  if is_dict source_item then
    let* has_url := eval (contains "url" source_item) in
    if has_url then
      let* url := eval (getitem source_item "url") in
      let* title := eval (dict_get source_item "title" url) in
      let* url' := eval (getitem source_item "url") in
      emit (EvMarkdown ("- [" +:+ str title +:+ "](" +:+ str url' +:+ ")"))
    else
      emit (EvMarkdown ("- " +:+ str source_item))
  else if is_str source_item then
    emit (EvMarkdown ("- " +:+ str source_item))
  else
    emit (EvMarkdown ("- " +:+ str source_item)).

(** Lines 52-61: one element of an entry's queries. *)
Definition render_query_object (q_item : PyVal) : M unit :=
  try_except
    (let* query := eval (getattr q_item "query") in
     let rationale := getattr_default q_item "rationale" (PyStr "N/A") in
     emit (EvMarkdown ("- " +:+ str query +:+ " (Rationale: " +:+ str rationale +:+ ")")))
    (fun e =>
       if is_AttributeError e
       then Some (emit (EvMarkdown ("- " +:+ str q_item)))
       else None).

Definition render_query (q_item : PyVal) : M unit :=
  if is_dict q_item then
    let* has_query := eval (contains "query" q_item) in
    if has_query then
      let* query := eval (getitem q_item "query") in
      let* rationale := eval (dict_get q_item "rationale" (PyStr "N/A")) in
      emit (EvMarkdown ("- " +:+ str query +:+ " (Rationale: " +:+ str rationale +:+ ")"))
    else render_query_object q_item
  else if is_str q_item then
    emit (EvMarkdown ("- " +:+ str q_item))
  else render_query_object q_item.

(** Lines 64-69: one element of an entry's reflections. *)
Definition render_reflection (r_idx : Z) (note : PyVal) : M unit :=
  emit (EvMarkdown ("  *Reflection " +:+ pretty (r_idx + 1)%Z +:+ ":*")) ;;
  let* sufficient := eval (dict_get note "is_sufficient" (PyStr "N/A")) in
  emit (EvMarkdown ("    - Sufficient: " +:+ str sufficient)) ;;
  let* gap := eval (dict_get note "knowledge_gap" (PyStr "N/A")) in
  emit (EvMarkdown ("    - Knowledge Gap: " +:+ str gap)) ;;
  let* has_follow_up := eval (contains "follow_up_queries" note) in
  if has_follow_up then
    let* follow_up := eval (getitem note "follow_up_queries") in
    if truthy follow_up then
      let* follow_up' := eval (getitem note "follow_up_queries") in
      let* joined := eval (str_join ", " follow_up') in
      emit (EvMarkdown ("    - Follow-up Queries: " +:+ joined))
    else ret tt
  else ret tt.

(** Lines 41-49, 50-61 and 62-69: the three optional lists of an entry. *)
Definition render_sources (entry : PyVal) : M unit :=
  let* sources := eval (dict_get entry "sources" PyNone) in
  if truthy sources then
    emit (EvMarkdown "**Sources:**") ;;
    let* sources' := eval (getitem entry "sources") in
    let* items := eval (iter sources') in
    for_each items render_source
  else ret tt.

Definition render_queries (entry : PyVal) : M unit :=
  let* queries := eval (dict_get entry "queries" PyNone) in
  if truthy queries then
    emit (EvMarkdown "**Generated Queries:**") ;;
    let* queries' := eval (getitem entry "queries") in
    let* items := eval (iter queries') in
    for_each items render_query
  else ret tt.

Definition render_reflections (entry : PyVal) : M unit :=
  let* reflections := eval (dict_get entry "reflections" PyNone) in
  if truthy reflections then
    emit (EvMarkdown "**Reflection Notes:**") ;;
    let* reflections' := eval (getitem entry "reflections") in
    let* items := eval (iter reflections') in
    for_each_indexed 0 items render_reflection
  else ret tt.

(** Lines 37-70: one history entry. *)
Definition render_entry (entry : PyVal) : M unit :=
  emit (EvChatMessage "user") ;;
  let* question := eval (getitem entry "question") in
  emit (EvMarkdown (str question)) ;;
  emit (EvChatMessage "assistant") ;;
  let* answer := eval (getitem entry "answer") in
  let* text := eval (str_add ("**Answer:**" +:+ newline) answer) in
  emit (EvMarkdown text) ;;
  render_sources entry ;;
  render_queries entry ;;
  render_reflections entry ;;
  emit EvDivider.

(** Lines 31-70: the conversation history. *)
Definition display_history : M unit :=
  emit (EvSubheader "Conversation History") ;;
  let* history := get_session_state "history" in
  (if truthy history then ret tt
   else emit (EvMarkdown "*No history yet. Ask a question above!*")) ;;
  let* history' := get_session_state "history" in
  let* entries := eval (iter history') in
  for_each entries render_entry.

Section WithBackend.

Context (backend : Backend).

(** Line 82: the import inside the handler. *)
Definition import_agent_graph : M Graph :=
  let* env := get_environ in
  eval (import_graph backend env).

(** Line 101: [graph.invoke(invocation_input, config=config)]. *)
Definition graph_invoke (graph : Graph) (invocation_input config : PyVal) : M PyVal :=
  let* env := get_environ in
  emit (EvInvoke invocation_input config env) ;;
  eval (invoke graph invocation_input config env).

(** Line 93 and lines 94-99. *)
Definition make_invocation_input (question : string) : PyVal :=
  PyDict [("messages", PyList [HumanMessage (PyStr question)])].

Definition make_config (number_of_initial_queries max_research_loops : Z) : PyVal :=
  PyDict [("configurable",
           PyDict [("number_of_initial_queries", PyInt number_of_initial_queries);
                   ("max_research_loops", PyInt max_research_loops)])].

(** Line 103: [result["messages"][-1].content]. *)
Definition last_message_content (result : PyVal) : Res PyVal :=
  match getitem result "messages" with
  | Err e => Err e
  | Ok messages =>
      match getitem_last messages with
      | Err e => Err e
      | Ok message => getattr message "content"
      end
  end.

(** Lines 109-115: [st.session_state.history.append(entry)]; only a list
    has [append] here. *)
Definition history_append (entry : PyVal) : M unit :=
  let* history := get_session_state "history" in
  match history with
  | PyList entries => set_session_state "history" (PyList (entries ++ [entry]))
  | _ => raise (no_attribute history "append")
  end.

(** Lines 82-124: the body of the [try]. *)
Definition process_request (w : Widgets)
    (number_of_initial_queries max_research_loops : Z) : M unit :=
  let* graph := import_agent_graph in
  set_environ "GEMINI_API_KEY" (api_key w) ;;
  let invocation_input := make_invocation_input (user_question w) in
  let config := make_config number_of_initial_queries max_research_loops in
  let* result := graph_invoke graph invocation_input config in
  let* answer := eval (last_message_content result) in
  set_session_state "current_answer" answer ;;
  let* sources := eval (dict_get result "sources_gathered" (PyList [])) in
  set_session_state "current_sources" sources ;;
  let* queries := eval (dict_get result "generated_queries" (PyList [])) in
  set_session_state "current_queries" queries ;;
  let* reflections := eval (dict_get result "reflection_notes" (PyList [])) in
  set_session_state "current_reflections" reflections ;;
  let* current_answer := get_session_state "current_answer" in
  let* current_sources := get_session_state "current_sources" in
  let* current_queries := get_session_state "current_queries" in
  let* current_reflections := get_session_state "current_reflections" in
  history_append (PyDict [("question", PyStr (user_question w));
                          ("answer", current_answer);
                          ("sources", current_sources);
                          ("queries", current_queries);
                          ("reflections", current_reflections)]) ;;
  set_session_state "current_answer" PyNone ;;
  set_session_state "current_sources" PyNone ;;
  set_session_state "current_queries" PyNone ;;
  set_session_state "current_reflections" PyNone ;;
  st_rerun.

(** Lines 126-129: the two [except] clauses, tried in order. *)
Definition except_clauses (e : Exn) : option (M unit) :=
  if is_ImportError e then
    Some (emit (EvError "Failed to import agent components. Please ensure the backend is correctly set up and all dependencies are installed."))
  else if is_Exception e then
    Some (emit (EvError ("An error occurred while processing your request: " +:+ exn_msg e)))
  else None.

(** Lines 74-129: the processing logic when the form is submitted. *)
Definition handle_submission (w : Widgets)
    (number_of_initial_queries max_research_loops : Z) : M unit :=
  if submit_button w then
    if negb (truthy (PyStr (api_key w))) then
      emit (EvError "Please enter your Gemini API Key.")
    else if negb (truthy (PyStr (user_question w))) then
      emit (EvError "Please enter your question.")
    else
      emit (EvSpinner "Agent is processing your request...") ;;
      try_except
        (process_request w number_of_initial_queries max_research_loops)
        except_clauses
  else ret tt.

(** Lines 133-144: the sections for the latest response. *)
Definition current_sections : M unit :=
  let* current_answer := get_session_state "current_answer" in
  (if truthy current_answer then
     emit (EvSubheader "Current Answer:") ;;
     emit (EvMarkdown (str current_answer))
   else ret tt) ;;
  let* current_sources := get_session_state "current_sources" in
  (if truthy current_sources then emit (EvSubheader "Current Sources:") else ret tt) ;;
  let* current_queries := get_session_state "current_queries" in
  (if truthy current_queries then emit (EvSubheader "Current Generated Queries:")
   else ret tt) ;;
  let* current_reflections := get_session_state "current_reflections" in
  (if truthy current_reflections then emit (EvSubheader "Current Reflection Notes:")
   else ret tt).

(** Lines 22-23: the two sidebar numbers. *)
Definition number_of_initial_queries (w : Widgets) : Z :=
  number_input 1 10 3 (initial_queries_entry w).

Definition max_research_loops (w : Widgets) : Z :=
  number_input 1 5 2 (research_loops_entry w).

(** Lines 26-29: the input form. *)
Definition input_form (w : Widgets) : M unit :=
  emit (EvForm "input_form") ;;
  text_input "api_key_input" (api_key w) ;;
  text_input "user_question_input" (user_question w) ;;
  form_submit_button "FormSubmitter:input_form-Submit" (submit_button w) ;;
  ret tt.

(** Lines 5-70: everything the script does before it looks at the submit
    button. *)
Definition page_top (w : Widgets) : M unit :=
  init_session_state ;;
  emit (EvTitle "LangGraph Agent Interface") ;;
  emit (EvSidebarHeader "Agent Configuration") ;;
  input_form w ;;
  display_history.

(** The whole script, top to bottom. *)
Definition script (w : Widgets) : M unit :=
  page_top w ;;
  handle_submission w (number_of_initial_queries w) (max_research_loops w) ;;
  current_sections.

(** The same widgets on a run that the submit button did not trigger. *)
Definition without_submit (w : Widgets) : Widgets :=
  mkWidgets (api_key w) (user_question w) false
            (initial_queries_entry w) (research_loops_entry w).

(** One interaction: Streamlit runs the script, and runs it once more, the
    submit button no longer pressed, when the run ended in [st.rerun()]. *)
Definition interaction (w : Widgets) : M unit :=
  fun s =>
    match script w s with
    | mkRun t s' (Raised (mkExn RerunException _)) =>
        match script (without_submit w) s' with
        | mkRun t' s'' o => mkRun (t ++ t') s'' o
        end
    | r => r
    end.

End WithBackend.

(** The calls to the agent graph recorded in a trace. *)
Definition is_invoke (ev : Event) : bool :=
  match ev with EvInvoke _ _ _ => true | _ => false end.

Definition invocations (t : list Event) : list Event := filter (fun ev => is_invoke ev = true) t.

(** The error boxes shown in a trace. *)
Definition errors_shown (t : list Event) : list string :=
  omap (fun ev => match ev with EvError s => Some s | _ => None end) t.

(** The history stored in a session state, when it is a list. *)
Definition history_of (w : World) : option (list PyVal) :=
  match session_state w !! "history" with
  | Some (PyList entries) => Some entries
  | _ => None
  end.


(** ** The vocabulary of the statements *)

(** The spec's reading of [result.get(key, [])]: the value under [key], the
    empty list if absent. *)
Definition field_or_empty (result : PyVal) (key : string) : PyVal :=
  match getitem result key with
  | Ok v => v
  | Err _ => PyList []
  end.

(** The environment the graph is called in, and the call itself. *)
Definition environ_with_key (w : Widgets) (s : World) : gmap string string :=
  <["GEMINI_API_KEY" := api_key w]> (environ s).

Definition invoke_event (w : Widgets) (nq mrl : Z) (s : World) : Event :=
  EvInvoke (make_invocation_input (user_question w)) (make_config nq mrl)
           (environ_with_key w s).

(** The entry a successful submission stores. *)
Definition history_entry (w : Widgets) (result answer : PyVal) : PyVal :=
  PyDict [("question", PyStr (user_question w));
          ("answer", answer);
          ("sources", field_or_empty result "sources_gathered");
          ("queries", field_or_empty result "generated_queries");
          ("reflections", field_or_empty result "reflection_notes")].

(** The session state once lines 103-106 have stored the result. *)
Definition session_with_result (result answer : PyVal)
    (ss : gmap string PyVal) : gmap string PyVal :=
  <["current_reflections" := field_or_empty result "reflection_notes"]>
    (<["current_queries" := field_or_empty result "generated_queries"]>
       (<["current_sources" := field_or_empty result "sources_gathered"]>
          (<["current_answer" := answer]> ss))).

(** The session state a successful submission leaves. *)
Definition session_after_success (w : Widgets) (result answer : PyVal)
    (h : list PyVal) (ss : gmap string PyVal) : gmap string PyVal :=
  <["current_reflections" := PyNone]>
    (<["current_queries" := PyNone]>
       (<["current_sources" := PyNone]>
          (<["current_answer" := PyNone]>
             (<["history" := PyList (h ++ [history_entry w result answer])]>
                (session_with_result result answer ss))))).

(** What the two [except] clauses do with the run of the [try] body. *)
Definition caught (r : Run unit) : Run unit :=
  match r with
  | mkRun t s (Raised e) =>
      if is_ImportError e then
        mkRun (t ++ [EvError "Failed to import agent components. Please ensure the backend is correctly set up and all dependencies are installed."]) s (Returned tt)
      else if is_Exception e then
        mkRun (t ++ [EvError ("An error occurred while processing your request: " +:+ exn_msg e)]) s (Returned tt)
      else r
  | _ => r
  end.

(** A run placed under [with st.spinner(...)]. *)
Definition under_spinner (r : Run unit) : Run unit :=
  mkRun (EvSpinner "Agent is processing your request..." :: trace r) (world r) (outcome r).

(** Lines 6-15 on the session state: a variable is created only when it
    does not exist. *)
Definition with_default (key : string) (v : PyVal)
    (ss : gmap string PyVal) : gmap string PyVal :=
  match ss !! key with
  | Some _ => ss
  | None => <[key := v]> ss
  end.

Definition initialised (ss : gmap string PyVal) : gmap string PyVal :=
  with_default "current_reflections" PyNone
    (with_default "current_queries" PyNone
       (with_default "current_sources" PyNone
          (with_default "current_answer" PyNone
             (with_default "history" (PyList []) ss)))).

(** The world in which the history is displayed: the variables exist and
    the two text fields and the submit button have stored their values. *)
Definition world_at_display (w : Widgets) (s : World) : World :=
  mkWorld (<["FormSubmitter:input_form-Submit" := PyBool (submit_button w)]>
             (<["user_question_input" := PyStr (user_question w)]>
                (<["api_key_input" := PyStr (api_key w)]>
                   (initialised (session_state s)))))
          (environ s).

(** A fragment that only writes to the page: it leaves the world as it is
    and every element it writes satisfies [P]. *)
Definition display_only {A} (P : Event -> bool) (m : M A) : Prop :=
  forall s, world (m s) = s /\ forallb P (trace (m s)) = true.

(** A fragment that does not raise. *)
Definition never_raises {A} (m : M A) : Prop :=
  forall s, exists a, outcome (m s) = Returned a.

(** Elements of the page, as opposed to calls to the graph. *)
Definition is_page_element (ev : Event) : bool := negb (is_invoke ev).

(** The headers of the sections for the latest response. *)
Definition is_current_section (ev : Event) : bool :=
  match ev with
  | EvSubheader s => is_prefix "Current " s
  | _ => false
  end.

(** Whether a run of the script gets as far as the submission handler, and
    whether the import of the agent graph succeeds. *)
Definition reaches_handler (w : Widgets) (s : World) : bool :=
  match outcome (page_top w s) with
  | Returned _ => true
  | Raised _ => false
  end.

Definition import_succeeds (backend : Backend) (env : gmap string string) : bool :=
  match import_graph backend env with
  | Ok _ => true
  | Err _ => false
  end.

(** The runs in which the handler gets to the call of the graph: the form
    was submitted with both fields filled in, the import succeeds, and the
    environment accepts the key. *)
Definition calls_graph (backend : Backend) (w : Widgets) (s : World) : bool :=
  submit_button w && truthy (PyStr (api_key w)) && truthy (PyStr (user_question w))
  && import_succeeds backend (environ s) && negb (has_nul (api_key w)).

(** The session-state keys the submission handler writes. *)
Definition handler_keys : list string :=
  ["history"; "current_answer"; "current_sources"; "current_queries";
   "current_reflections"].

(** A valid submission whose request goes through: the import gives a
    graph, the environment accepts the key, the call returns [result], the
    last element of [result["messages"]] has the content [answer], and the
    history the handler finds is the list [h]. *)
Definition submission_succeeds (backend : Backend) (w : Widgets) (nq mrl : Z)
    (s : World) (result answer : PyVal) (h : list PyVal) : Prop :=
  submit_button w = true /\ api_key w ≠ "" /\ user_question w ≠ "" /\
  has_nul (api_key w) = false /\
  (exists g,
     import_graph backend (environ s) = Ok g /\
     invoke g (make_invocation_input (user_question w)) (make_config nq mrl)
            (environ_with_key w s) = Ok result) /\
  (exists messages message,
     getitem result "messages" = Ok (PyList messages) /\
     last messages = Some message /\
     getattr message "content" = Ok answer) /\
  history_of s = Some h.


(** An exception was caught and shown: the run returns and one error box
    is on the page. *)
Definition caught_and_displayed (r : Run unit) : Prop :=
  outcome r = Returned tt /\ exists message, errors_shown (trace r) = [message].

(** The extraction of the result, lines 103-106, raises. *)
Definition extraction_raises (result : PyVal) : Prop :=
  (exists e, last_message_content result = Err e) \/
  (exists e, dict_get result "sources_gathered" (PyList []) = Err e) \/
  (exists e, dict_get result "generated_queries" (PyList []) = Err e) \/
  (exists e, dict_get result "reflection_notes" (PyList []) = Err e).

(** The text of the error box for an exception caught by the handler. *)
Definition error_message (e : Exn) : string :=
  if is_ImportError e then
    "Failed to import agent components. Please ensure the backend is correctly set up and all dependencies are installed."
  else
    "An error occurred while processing your request: " +:+ exn_msg e.

(** No header of a section for the latest response. *)
Definition not_current_section (ev : Event) : bool := negb (is_current_section ev).

(** The four variables for the latest response. *)
Definition current_keys : list string :=
  ["current_answer"; "current_sources"; "current_queries"; "current_reflections"].

(** ** Concrete cases *)

Definition fresh_session : World := mkWorld ∅ ∅.

Definition filled_form : Widgets :=
  mkWidgets "secret-key" "What is LangGraph?" true None None.

Definition form_without_key : Widgets :=
  mkWidgets "" "What is LangGraph?" true None None.

Definition form_without_question : Widgets :=
  mkWidgets "secret-key" "" true None None.

Definition sample_answer : PyVal := PyStr "A library for building agent graphs.".

Definition sample_result : PyVal :=
  PyDict [("messages", PyList [HumanMessage (PyStr "What is LangGraph?");
                               AIMessage sample_answer]);
          ("sources_gathered",
           PyList [PyDict [("title", PyStr "LangGraph"); ("url", PyStr "https://example.org/langgraph")]]);
          ("generated_queries",
           PyList [PyDict [("query", PyStr "langgraph overview")]])].

Definition graph_returning (result : PyVal) : Graph := mkGraph (fun _ _ _ => Ok result).

Definition graph_raising (e : Exn) : Graph := mkGraph (fun _ _ _ => Err e).

Definition backend_ready : Backend := mkBackend (fun _ => Ok (graph_returning sample_result)).

(** The backend package is not installed. *)
Definition backend_missing : Backend :=
  mkBackend (fun _ => Err (mkExn ModuleNotFoundError "No module named 'backend'")).

(** The call is interrupted. *)
Definition backend_interrupted : Backend :=
  mkBackend (fun _ => Ok (graph_raising (mkExn KeyboardInterrupt ""))).

(** The call fails with an ordinary error. *)
Definition backend_failing : Backend :=
  mkBackend (fun _ => Ok (graph_raising (mkExn RuntimeError "quota exceeded"))).

(** The graph reports its reflections as plain text. *)
Definition result_with_text_reflection : PyVal :=
  PyDict [("messages", PyList [AIMessage sample_answer]);
          ("reflection_notes", PyList [PyStr "Coverage looks thin."])].

Definition backend_text_reflection : Backend :=
  mkBackend (fun _ => Ok (graph_returning result_with_text_reflection)).

Definition entry_with_text_reflection : PyVal :=
  PyDict [("question", PyStr "What is LangGraph?");
          ("answer", sample_answer);
          ("sources", PyList []);
          ("queries", PyList []);
          ("reflections", PyList [PyStr "Coverage looks thin."])].

End App.

Import App.

(** ** Shapes of stored values and of traces *)

(** Whether a fragment started in [s] returns rather than raises. *)
Definition returns {A} (m : M A) (s : World) : bool :=
  match outcome (m s) with
  | Returned _ => true
  | Raised _ => false
  end.

(** Follow-up queries line 69 can show: nothing truthy, or something
    [', '.join] accepts. *)
Definition follow_up_ok (v : PyVal) : bool :=
  if truthy v then
    match str_join ", " v with
    | Ok _ => true
    | Err _ => false
    end
  else true.

(** A reflection lines 65-69 can show: a dict whose follow-up queries, when
    present, are as above. *)
Definition reflection_ok (note : PyVal) : bool :=
  match note with
  | PyDict kvs =>
      match assoc "follow_up_queries" kvs with
      | Some v => follow_up_ok v
      | None => true
      end
  | _ => false
  end.

(** A value stored under "sources", "queries" or "reflections" that the
    loop over it can show: absent, falsy, or iterable with elements the body
    of the loop accepts. *)
Definition section_ok (elem_ok : PyVal -> bool) (v : option PyVal) : bool :=
  match v with
  | None => true
  | Some x =>
      if truthy x then
        match iter x with
        | Ok items => forallb elem_ok items
        | Err _ => false
        end
      else true
  end.

(** An entry lines 37-70 can show. *)
Definition entry_renderable (entry : PyVal) : bool :=
  match entry with
  | PyDict kvs =>
      match assoc "question" kvs, assoc "answer" kvs with
      | Some _, Some (PyStr _) =>
          section_ok (fun _ => true) (assoc "sources" kvs)
          && section_ok (fun _ => true) (assoc "queries" kvs)
          && section_ok reflection_ok (assoc "reflections" kvs)
      | _, _ => false
      end
  | _ => false
  end.

(** The entries at the front of a history that can all be shown. *)
Fixpoint renderable_prefix (h : list PyVal) : list PyVal :=
  match h with
  | [] => []
  | entry :: rest =>
      if entry_renderable entry then entry :: renderable_prefix rest else []
  end.

(** What the display of the history writes: headers, chat bubbles, text and
    dividers. *)
Definition is_history_element (ev : Event) : bool :=
  match ev with
  | EvSubheader _ | EvChatMessage _ | EvMarkdown _ | EvDivider => true
  | _ => false
  end.

Definition is_divider (ev : Event) : bool :=
  match ev with EvDivider => true | _ => false end.

Definition not_divider (ev : Event) : bool := negb (is_divider ev).

(** The number of dividers in a trace. *)
Definition dividers (t : list Event) : nat :=
  length (filter (fun ev => is_divider ev = true) t).

(** The history the script works with when it starts from [s]: the stored
    list, or the empty list when the variable does not exist yet. *)
Definition history_at_start (s : World) : option (list PyVal) :=
  match session_state s !! "history" with
  | None => Some []
  | Some (PyList entries) => Some entries
  | Some _ => None
  end.

(** The session-state keys of the two text fields and of the submit
    button. *)
Definition widget_keys : list string :=
  ["api_key_input"; "user_question_input"; "FormSubmitter:input_form-Submit"].

(** The value a session variable has once lines 6-15 have run. *)
Definition initial_value (key : string) (default : PyVal)
    (ss : gmap string PyVal) : PyVal :=
  match ss !! key with
  | Some v => v
  | None => default
  end.

(** The questions a trace shows: the texts written first in the bubbles of
    the user. *)
Fixpoint questions_shown (t : list Event) : list string :=
  match t with
  | [] => []
  | EvChatMessage role :: rest =>
      match rest with
      | EvMarkdown text :: _ =>
          if String.eqb role "user" then text :: questions_shown rest
          else questions_shown rest
      | _ => questions_shown rest
      end
  | _ :: rest => questions_shown rest
  end.

(** The text of the question of a stored entry, and the questions of a
    history. *)
Definition question_text (entry : PyVal) : option string :=
  match getitem entry "question" with
  | Ok question => Some (str question)
  | Err _ => None
  end.

Definition questions_of (h : list PyVal) : list string := omap question_text h.

(** What an entry writes after its two bubbles: text and dividers. *)
Definition not_chat (ev : Event) : bool :=
  match ev with
  | EvMarkdown _ | EvDivider => true
  | _ => false
  end.

(** A fragment whose exceptions all satisfy [Q]. *)
Definition raises_only {A} (Q : Exn -> bool) (m : M A) : Prop :=
  forall s e, outcome (m s) = Raised e -> Q e = true.

(** A result whose error, if any, satisfies [Q]. *)
Definition fails_only {A} (Q : Exn -> bool) (r : Res A) : Prop :=
  forall e, r = Err e -> Q e = true.


(** A second question, asked in the session the first one left. *)
Definition second_form : Widgets :=
  mkWidgets "secret-key" "And LangChain?" true None None.

Definition session_with_one_entry : World :=
  world (interaction backend_ready filled_form fresh_session).

(** A graph whose result has no messages. *)
Definition backend_without_messages : Backend :=
  mkBackend (fun _ => Ok (graph_returning (PyDict [("sources_gathered", PyList [])]))).

(** An entry whose answer is a list of content blocks. *)
Definition entry_with_block_answer : list (string * PyVal) :=
  [("question", PyStr "What is LangGraph?");
   ("answer", PyList [PyDict [("type", PyStr "text"); ("text", PyStr "A library.")]])].

(** ** The script on concrete inputs *)

Example render_source_with_title :
  trace (render_source (PyDict [("title", PyStr "LangGraph");
                                ("url", PyStr "https://example.org/langgraph")])
           fresh_session)
    = [EvMarkdown "- [LangGraph](https://example.org/langgraph)"].
Proof. reflexivity. Qed.

Example render_source_without_title :
  trace (render_source (PyDict [("url", PyStr "https://example.org")]) fresh_session)
    = [EvMarkdown "- [https://example.org](https://example.org)"].
Proof. reflexivity. Qed.

Example render_source_number :
  trace (render_source (PyInt 42) fresh_session) = [EvMarkdown "- 42"].
Proof. vm_compute. reflexivity. Qed.

(** A list is shown with the [repr] of its elements: a string that holds a
    single quote goes between double quotes, a line feed is escaped. *)
Example render_source_list_of_strings :
  trace (render_source (PyList [PyStr "it's"; PyStr ("a" +:+ newline +:+ "b")])
           fresh_session)
    = [EvMarkdown ("- [" +:+ dquote +:+ "it's" +:+ dquote +:+ ", 'a\nb']")].
Proof. vm_compute. reflexivity. Qed.

Example render_query_dict :
  trace (render_query (PyDict [("query", PyStr "langgraph overview")]) fresh_session)
    = [EvMarkdown "- langgraph overview (Rationale: N/A)"].
Proof. reflexivity. Qed.

Example render_query_from_object :
  trace (render_query (PyObj "Query" [("query", PyStr "langgraph overview");
                                      ("rationale", PyStr "start broad")])
           fresh_session)
    = [EvMarkdown "- langgraph overview (Rationale: start broad)"].
Proof. reflexivity. Qed.

Example render_query_fallback :
  trace (render_query (PyList [PyInt 1; PyInt 2]) fresh_session)
    = [EvMarkdown "- [1, 2]"].
Proof. vm_compute. reflexivity. Qed.

Example render_reflection_dict :
  trace (render_reflection 0
           (PyDict [("is_sufficient", PyBool false);
                    ("follow_up_queries", PyList [PyStr "pricing"; PyStr "licence"])])
           fresh_session)
    = [EvMarkdown "  *Reflection 1:*";
       EvMarkdown "    - Sufficient: False";
       EvMarkdown "    - Knowledge Gap: N/A";
       EvMarkdown "    - Follow-up Queries: pricing, licence"].
Proof. vm_compute. reflexivity. Qed.

(** A follow-up list that holds something else than strings cannot be
    joined. *)
Example render_reflection_numeric_follow_up :
  outcome (render_reflection 0 (PyDict [("follow_up_queries", PyList [PyInt 1])])
             fresh_session)
    = Raised (mkExn TypeError "sequence item 0: expected str instance, int found").
Proof. vm_compute. reflexivity. Qed.

(** A first submission in a fresh session: the run ends in the rerun, which
    shows the stored entry. *)
Example first_submission :
  history_of (world (interaction backend_ready filled_form fresh_session))
    = Some [PyDict [("question", PyStr "What is LangGraph?");
                    ("answer", sample_answer);
                    ("sources",
                     PyList [PyDict [("title", PyStr "LangGraph");
                                     ("url", PyStr "https://example.org/langgraph")]]);
                    ("queries", PyList [PyDict [("query", PyStr "langgraph overview")]]);
                    ("reflections", PyList [])]] /\
  outcome (interaction backend_ready filled_form fresh_session) = Returned tt /\
  filter (fun ev => is_page_element ev = true)
         (trace (interaction backend_ready filled_form fresh_session))
    = [EvTitle "LangGraph Agent Interface";
       EvSidebarHeader "Agent Configuration";
       EvForm "input_form";
       EvSubheader "Conversation History";
       EvMarkdown "*No history yet. Ask a question above!*";
       EvSpinner "Agent is processing your request...";
       EvTitle "LangGraph Agent Interface";
       EvSidebarHeader "Agent Configuration";
       EvForm "input_form";
       EvSubheader "Conversation History";
       EvChatMessage "user";
       EvMarkdown "What is LangGraph?";
       EvChatMessage "assistant";
       EvMarkdown ("**Answer:**" +:+ newline +:+ "A library for building agent graphs.");
       EvMarkdown "**Sources:**";
       EvMarkdown "- [LangGraph](https://example.org/langgraph)";
       EvMarkdown "**Generated Queries:**";
       EvMarkdown "- langgraph overview (Rationale: N/A)";
       EvDivider].
Proof. repeat split; vm_compute; reflexivity. Qed.

(** ** Running script fragments *)

(** Unfold the monad's operations without touching the finite maps. *)
Ltac run_step :=
  cbv [bind ret raise emit eval try_except set_session_state get_session_state
       set_environ get_environ in_session_state text_input form_submit_button st_rerun];
  cbn [app trace world outcome session_state environ].

(** Resolve the session-state lookups that go through insertions. *)
Ltac run_lookup :=
  rewrite ?lookup_insert_eq;
  repeat (rewrite lookup_insert_ne by done; rewrite ?lookup_insert_eq).

Ltac run := repeat (progress (run_step; run_lookup)).

Lemma truthy_str_nonempty (s : string) : s ≠ "" -> truthy (PyStr s) = true.
Proof.
  intros Hs. cbn. destruct (String.eqb_spec s ""); [contradiction | reflexivity].
Qed.

Lemma truthy_str_empty : truthy (PyStr "") = false.
Proof. reflexivity. Qed.

(** A result whose last message could be read is a dict, so its [get]
    method exists and never raises. *)
Lemma last_message_content_dict (result answer : PyVal) :
  last_message_content result = Ok answer -> exists kvs, result = PyDict kvs.
Proof.
  destruct result; cbn; try discriminate. eauto.
Qed.

Lemma dict_get_field_or_empty (kvs : list (string * PyVal)) (key : string) :
  dict_get (PyDict kvs) key (PyList []) = Ok (field_or_empty (PyDict kvs) key).
Proof.
  unfold dict_get, field_or_empty, getitem. destruct (assoc key kvs); reflexivity.
Qed.

Lemma invocations_app (t1 t2 : list Event) :
  invocations (t1 ++ t2) = invocations t1 ++ invocations t2.
Proof. unfold invocations. apply filter_app. Qed.

Lemma invocations_page_elements (t : list Event) :
  forallb is_page_element t = true -> invocations t = [].
Proof.
  induction t as [|ev t IH]; [reflexivity|]. cbn [forallb]. intros [Hev Ht]%andb_prop.
  unfold invocations in *. rewrite filter_cons. destruct (decide (is_invoke ev = true)) as [Hi|_].
  - unfold is_page_element in Hev. rewrite Hi in Hev. discriminate.
  - auto.
Qed.

(** The environment refuses the API key exactly when it holds a NUL. *)
Lemma environ_rejects_api_key (value : string) :
  environ_rejects "GEMINI_API_KEY" value =
    if has_nul value then Some (mkExn ValueError "embedded null byte") else None.
Proof. reflexivity. Qed.

Section HandlerRuns.

Context (backend : Backend).

Lemma process_request_import_fails w nq mrl s e :
  import_graph backend (environ s) = Err e ->
  process_request backend w nq mrl s = mkRun [] s (Raised e).
Proof.
  intros Himp. destruct s as [ss env]. cbn in Himp.
  unfold process_request, import_agent_graph. run. rewrite Himp. reflexivity.
Qed.

Lemma process_request_key_rejected w nq mrl s g :
  import_graph backend (environ s) = Ok g ->
  has_nul (api_key w) = true ->
  process_request backend w nq mrl s =
    mkRun [] s (Raised (mkExn ValueError "embedded null byte")).
Proof.
  intros Himp Hnul. destruct s as [ss env]. cbn in Himp.
  unfold process_request, import_agent_graph. run. rewrite Himp. run.
  rewrite environ_rejects_api_key, Hnul. reflexivity.
Qed.

Lemma process_request_invoke_fails w nq mrl s g e :
  import_graph backend (environ s) = Ok g ->
  has_nul (api_key w) = false ->
  invoke g (make_invocation_input (user_question w)) (make_config nq mrl)
         (environ_with_key w s) = Err e ->
  process_request backend w nq mrl s =
    mkRun [invoke_event w nq mrl s]
          (mkWorld (session_state s) (environ_with_key w s)) (Raised e).
Proof.
  intros Himp Hnul Hinv. destruct s as [ss env]. unfold environ_with_key, invoke_event in *.
  cbn [environ session_state] in *.
  unfold process_request, import_agent_graph, graph_invoke. run.
  rewrite Himp. run. rewrite environ_rejects_api_key, Hnul. run. rewrite Hinv. reflexivity.
Qed.

Lemma process_request_extraction_fails w nq mrl s g result e :
  import_graph backend (environ s) = Ok g ->
  has_nul (api_key w) = false ->
  invoke g (make_invocation_input (user_question w)) (make_config nq mrl)
         (environ_with_key w s) = Ok result ->
  last_message_content result = Err e ->
  process_request backend w nq mrl s =
    mkRun [invoke_event w nq mrl s]
          (mkWorld (session_state s) (environ_with_key w s)) (Raised e).
Proof.
  intros Himp Hnul Hinv Hans. destruct s as [ss env]. unfold environ_with_key, invoke_event in *.
  cbn [environ session_state] in *.
  unfold process_request, import_agent_graph, graph_invoke. run.
  rewrite Himp. run. rewrite environ_rejects_api_key, Hnul. run. rewrite Hinv. run. rewrite Hans. reflexivity.
Qed.

Lemma process_request_succeeds w nq mrl s g result answer h :
  import_graph backend (environ s) = Ok g ->
  has_nul (api_key w) = false ->
  invoke g (make_invocation_input (user_question w)) (make_config nq mrl)
         (environ_with_key w s) = Ok result ->
  last_message_content result = Ok answer ->
  history_of s = Some h ->
  process_request backend w nq mrl s =
    mkRun [invoke_event w nq mrl s]
          (mkWorld (session_after_success w result answer h (session_state s))
                   (environ_with_key w s))
          (Raised (mkExn RerunException "")).
Proof.
  intros Himp Hnul Hinv Hans Hh. destruct s as [ss env].
  unfold environ_with_key, invoke_event, history_of in *.
  unfold session_after_success, session_with_result.
  cbn [environ session_state] in *.
  destruct (ss !! "history") as [hv|] eqn:Hhist; [|discriminate].
  destruct hv; try discriminate. injection Hh as ->.
  destruct (last_message_content_dict _ _ Hans) as [kvs ->].
  unfold process_request, import_agent_graph, graph_invoke, history_append. run.
  rewrite Himp. run. rewrite environ_rejects_api_key, Hnul. run. rewrite Hinv. run. rewrite Hans. run.
  rewrite !dict_get_field_or_empty. run. rewrite Hhist. run.
  reflexivity.
Qed.

Lemma process_request_append_fails w nq mrl s g result answer :
  import_graph backend (environ s) = Ok g ->
  has_nul (api_key w) = false ->
  invoke g (make_invocation_input (user_question w)) (make_config nq mrl)
         (environ_with_key w s) = Ok result ->
  last_message_content result = Ok answer ->
  history_of s = None ->
  exists e,
    is_Exception e = true /\
    process_request backend w nq mrl s =
      mkRun [invoke_event w nq mrl s]
            (mkWorld (session_with_result result answer (session_state s))
                     (environ_with_key w s))
            (Raised e).
Proof.
  intros Himp Hnul Hinv Hans Hh. destruct s as [ss env].
  unfold environ_with_key, invoke_event, history_of, session_with_result in *.
  cbn [environ session_state] in *.
  destruct (last_message_content_dict _ _ Hans) as [kvs ->].
  unfold process_request, import_agent_graph, graph_invoke, history_append. run.
  rewrite Himp. run. rewrite environ_rejects_api_key, Hnul. run. rewrite Hinv. run. rewrite Hans. run.
  rewrite !dict_get_field_or_empty. run.
  destruct (ss !! "history") as [hv|] eqn:Hhist; run.
  - destruct hv; try discriminate; run; eexists; (split; [|reflexivity]); reflexivity.
  - eexists; (split; [|reflexivity]); reflexivity.
Qed.

Lemma spinner_try_run w nq mrl s :
  (emit (EvSpinner "Agent is processing your request...") ;;
   try_except (process_request backend w nq mrl) except_clauses) s =
    under_spinner (caught (process_request backend w nq mrl s)).
Proof.
  unfold under_spinner, caught, except_clauses. run_step.
  destruct (process_request backend w nq mrl s) as [t s' [[]|e]]; [reflexivity|].
  destruct (is_ImportError e); [reflexivity|].
  destruct (is_Exception e); reflexivity.
Qed.

Lemma handle_submission_valid w nq mrl s :
  submit_button w = true -> api_key w ≠ "" -> user_question w ≠ "" ->
  handle_submission backend w nq mrl s =
    under_spinner (caught (process_request backend w nq mrl s)).
Proof.
  intros Hsub Hkey Hq. unfold handle_submission.
  rewrite Hsub, (truthy_str_nonempty _ Hkey), (truthy_str_nonempty _ Hq).
  cbn [negb]. apply spinner_try_run.
Qed.

Lemma handle_submission_not_submitted w nq mrl s :
  submit_button w = false ->
  handle_submission backend w nq mrl s = mkRun [] s (Returned tt).
Proof. intros Hsub. unfold handle_submission. rewrite Hsub. reflexivity. Qed.

Lemma handle_submission_no_key w nq mrl s :
  submit_button w = true -> api_key w = "" ->
  handle_submission backend w nq mrl s =
    mkRun [EvError "Please enter your Gemini API Key."] s (Returned tt).
Proof. intros Hsub Hkey. unfold handle_submission. rewrite Hsub, Hkey. reflexivity. Qed.

Lemma handle_submission_no_question w nq mrl s :
  submit_button w = true -> api_key w ≠ "" -> user_question w = "" ->
  handle_submission backend w nq mrl s =
    mkRun [EvError "Please enter your question."] s (Returned tt).
Proof.
  intros Hsub Hkey Hq. unfold handle_submission.
  rewrite Hsub, (truthy_str_nonempty _ Hkey), Hq. reflexivity.
Qed.

Lemma world_caught (r : Run unit) : world (caught r) = world r.
Proof.
  destruct r as [t s [[]|e]]; cbn; [reflexivity|].
  destruct (is_ImportError e); [reflexivity|]. destruct (is_Exception e); reflexivity.
Qed.

Lemma invocations_caught (r : Run unit) :
  invocations (trace (caught r)) = invocations (trace r).
Proof.
  destruct r as [t s [[]|e]]; cbn; [reflexivity|].
  destruct (is_ImportError e); [|destruct (is_Exception e)]; cbn [trace];
    unfold invocations; rewrite ?filter_app; cbn; rewrite ?app_nil_r; reflexivity.
Qed.

Lemma process_request_trace w nq mrl s :
  trace (process_request backend w nq mrl s) =
    if import_succeeds backend (environ s) && negb (has_nul (api_key w))
    then [invoke_event w nq mrl s] else [].
Proof.
  unfold import_succeeds.
  destruct (import_graph backend (environ s)) as [g|e] eqn:Himp;
    [|rewrite (process_request_import_fails _ _ _ _ _ Himp); reflexivity].
  destruct (has_nul (api_key w)) eqn:Hnul;
    [rewrite (process_request_key_rejected _ _ _ _ _ Himp Hnul); reflexivity|].
  destruct (invoke g (make_invocation_input (user_question w)) (make_config nq mrl)
              (environ_with_key w s)) as [result|e] eqn:Hinv;
    [|rewrite (process_request_invoke_fails _ _ _ _ _ _ Himp Hnul Hinv); reflexivity].
  destruct (last_message_content result) as [answer|e] eqn:Hans;
    [|rewrite (process_request_extraction_fails _ _ _ _ _ _ _ Himp Hnul Hinv Hans);
      reflexivity].
  destruct (history_of s) as [h|] eqn:Hh.
  - rewrite (process_request_succeeds _ _ _ _ _ _ _ _ Himp Hnul Hinv Hans Hh). reflexivity.
  - destruct (process_request_append_fails _ nq mrl _ _ _ _ Himp Hnul Hinv Hans Hh)
      as (e & _ & ->). reflexivity.
Qed.

Lemma handle_submission_invocations w nq mrl s :
  invocations (trace (handle_submission backend w nq mrl s)) =
    if calls_graph backend w s then [invoke_event w nq mrl s] else [].
Proof.
  unfold handle_submission, calls_graph.
  destruct (submit_button w); [|reflexivity].
  destruct (truthy (PyStr (api_key w))); [|reflexivity].
  destruct (truthy (PyStr (user_question w))); [|reflexivity].
  cbn [negb andb]. rewrite spinner_try_run. unfold under_spinner. cbn [trace].
  change (EvSpinner ?m :: ?t) with ([EvSpinner m] ++ t).
  rewrite invocations_app, invocations_caught, process_request_trace.
  destruct (import_succeeds backend (environ s) && negb (has_nul (api_key w)));
    reflexivity.
Qed.

End HandlerRuns.

(** ** Fragments that only write to the page *)

Section DisplayOnly.

Context (P : Event -> bool).

Lemma display_only_ret {A} (a : A) : display_only P (ret a).
Proof. intros s. split; reflexivity. Qed.

Lemma display_only_raise {A} (e : Exn) : display_only P (@raise A e).
Proof. intros s. split; reflexivity. Qed.

Lemma display_only_eval {A} (r : Res A) : display_only P (eval r).
Proof. destruct r; [apply display_only_ret | apply display_only_raise]. Qed.

Lemma display_only_emit (ev : Event) : P ev = true -> display_only P (emit ev).
Proof. intros Hev s. split; [reflexivity|]. cbn. rewrite Hev. reflexivity. Qed.

Lemma display_only_get_session_state (key : string) :
  display_only P (get_session_state key).
Proof.
  intros s. unfold get_session_state. destruct (session_state s !! key); split; reflexivity.
Qed.

Lemma display_only_bind {A B} (m : M A) (k : A -> M B) :
  display_only P m -> (forall a, display_only P (k a)) -> display_only P (bind m k).
Proof.
  intros Hm Hk s. unfold bind. destruct (Hm s) as [Hw Ht].
  destruct (m s) as [t s' [a|e]]; cbn in Hw, Ht; subst s'.
  - destruct (Hk a s) as [Hw' Ht']. destruct (k a s) as [t' s'' o]; cbn in *.
    split; [assumption|]. rewrite forallb_app, Ht, Ht'. reflexivity.
  - split; [reflexivity | assumption].
Qed.

Lemma display_only_try_except {A} (body : M A) (handler : Exn -> option (M A)) :
  display_only P body ->
  (forall e h, handler e = Some h -> display_only P h) ->
  display_only P (try_except body handler).
Proof.
  intros Hb Hh s. unfold try_except. destruct (Hb s) as [Hw Ht].
  destruct (body s) as [t s' [a|e]]; cbn in Hw, Ht; subst s'.
  - split; [reflexivity | assumption].
  - destruct (handler e) as [h|] eqn:He; [|split; [reflexivity | assumption]].
    destruct (Hh e h He s) as [Hw' Ht']. destruct (h s) as [t' s'' o]; cbn in *.
    split; [assumption|]. rewrite forallb_app, Ht, Ht'. reflexivity.
Qed.

Lemma display_only_for_each {A} (xs : list A) (body : A -> M unit) :
  (forall x, display_only P (body x)) -> display_only P (for_each xs body).
Proof.
  intros Hbody. induction xs as [|x xs IH]; cbn [for_each].
  - apply display_only_ret.
  - apply display_only_bind; [apply Hbody | intros _; exact IH].
Qed.

Lemma display_only_for_each_indexed {A} (xs : list A) (body : Z -> A -> M unit) (i : Z) :
  (forall j x, display_only P (body j x)) -> display_only P (for_each_indexed i xs body).
Proof.
  intros Hbody. revert i. induction xs as [|x xs IH]; intros i; cbn [for_each_indexed].
  - apply display_only_ret.
  - apply display_only_bind; [apply Hbody | intros _; apply IH].
Qed.

End DisplayOnly.

(** Decompose a fragment down to its [emit]s, which are left as goals. *)
Ltac display_only_step :=
  lazymatch goal with
  | |- display_only _ (bind _ _) => apply display_only_bind; [|intros ?]
  | |- display_only _ (ret _) => apply display_only_ret
  | |- display_only _ (raise _) => apply display_only_raise
  | |- display_only _ (eval _) => apply display_only_eval
  | |- display_only _ (get_session_state _) => apply display_only_get_session_state
  | |- display_only _ (emit _) => apply display_only_emit
  | |- display_only _ (for_each _ _) => apply display_only_for_each; intros ?
  | |- display_only _ (for_each_indexed _ _ _) =>
      apply display_only_for_each_indexed; intros ? ?
  | |- display_only _ (try_except _ _) =>
      apply display_only_try_except; [|intros ? ? ?]
  | |- display_only _ (if ?b then _ else _) => destruct b
  end.

Section RenderingIsDisplayOnly.

Context (P : Event -> bool).
Context (HP_markdown : forall s, P (EvMarkdown s) = true).
Context (HP_chat : forall s, P (EvChatMessage s) = true).
Context (HP_divider : P EvDivider = true).
Context (HP_history : P (EvSubheader "Conversation History") = true).

Lemma display_only_render_source (x : PyVal) : display_only P (render_source x).
Proof. unfold render_source. repeat display_only_step; apply HP_markdown. Qed.

Lemma display_only_render_query (x : PyVal) : display_only P (render_query x).
Proof.
  unfold render_query, render_query_object. repeat display_only_step;
    try apply HP_markdown.
  all: match goal with H : (if ?b then _ else _) = Some _ |- _ =>
         destruct b; [injection H as <- | discriminate H] end.
  all: apply display_only_emit, HP_markdown.
Qed.

Lemma display_only_render_reflection (i : Z) (x : PyVal) :
  display_only P (render_reflection i x).
Proof. unfold render_reflection. repeat display_only_step; apply HP_markdown. Qed.

Lemma display_only_render_entry (entry : PyVal) : display_only P (render_entry entry).
Proof.
  unfold render_entry, render_sources, render_queries, render_reflections.
  repeat first [ apply display_only_render_source
               | apply display_only_render_query
               | apply display_only_render_reflection
               | display_only_step ];
    first [apply HP_markdown | apply HP_chat | apply HP_divider].
Qed.

Lemma display_only_display_history : display_only P display_history.
Proof.
  unfold display_history.
  repeat first [ apply display_only_render_entry | display_only_step ];
    first [apply HP_markdown | apply HP_history].
Qed.

End RenderingIsDisplayOnly.

(** ** The script before and after the handler *)

Lemma init_default_run (key : string) (v : PyVal) (s : World) :
  init_default key v s =
    mkRun [] (mkWorld (with_default key v (session_state s)) (environ s)) (Returned tt).
Proof.
  destruct s as [ss env]. unfold init_default, with_default. run_step.
  destruct (ss !! key); reflexivity.
Qed.

Lemma init_session_state_run (s : World) :
  init_session_state s =
    mkRun [] (mkWorld (initialised (session_state s)) (environ s)) (Returned tt).
Proof.
  unfold init_session_state, initialised.
  unfold bind at 1. rewrite init_default_run.
  unfold bind at 1. rewrite init_default_run.
  unfold bind at 1. rewrite init_default_run.
  unfold bind at 1. rewrite init_default_run.
  rewrite init_default_run. reflexivity.
Qed.

Lemma page_top_run (w : Widgets) (s : World) :
  page_top w s =
    match display_history (world_at_display w s) with
    | mkRun t s' o =>
        mkRun (EvTitle "LangGraph Agent Interface"
                 :: EvSidebarHeader "Agent Configuration"
                 :: EvForm "input_form" :: t) s' o
    end.
Proof.
  unfold page_top. unfold bind at 1. rewrite init_session_state_run.
  unfold input_form, world_at_display. run_step.
  destruct (display_history _) as [t s' [[]|e]]; reflexivity.
Qed.

Lemma page_top_world (w : Widgets) (s : World) :
  world (page_top w s) = world_at_display w s.
Proof.
  rewrite page_top_run.
  destruct (display_only_display_history (fun _ => true)
              ltac:(done) ltac:(done) ltac:(done) ltac:(done) (world_at_display w s))
    as [Hw _].
  destruct (display_history (world_at_display w s)); exact Hw.
Qed.

Lemma page_top_trace (P : Event -> bool) (w : Widgets) (s : World) :
  (forall x, P (EvMarkdown x) = true) ->
  (forall x, P (EvChatMessage x) = true) ->
  P EvDivider = true ->
  P (EvSubheader "Conversation History") = true ->
  P (EvTitle "LangGraph Agent Interface") = true ->
  P (EvSidebarHeader "Agent Configuration") = true ->
  P (EvForm "input_form") = true ->
  forallb P (trace (page_top w s)) = true.
Proof.
  intros Hm Hc Hd Hh Ht Hs Hf. rewrite page_top_run.
  destruct (display_only_display_history P Hm Hc Hd Hh (world_at_display w s)) as [_ Htr].
  destruct (display_history (world_at_display w s)); cbn in *.
  rewrite Ht, Hs, Hf, Htr. reflexivity.
Qed.

Lemma page_top_invocations (w : Widgets) (s : World) :
  invocations (trace (page_top w s)) = [].
Proof. apply invocations_page_elements, page_top_trace; done. Qed.

Lemma display_only_current_sections (P : Event -> bool) :
  (forall x, P (EvMarkdown x) = true) ->
  (forall x, P (EvSubheader x) = true) ->
  display_only P current_sections.
Proof.
  intros Hm Hs. unfold current_sections. repeat display_only_step; auto.
Qed.

Lemma current_sections_invocations (s : World) :
  invocations (trace (current_sections s)) = [].
Proof.
  apply invocations_page_elements.
  apply (display_only_current_sections is_page_element); done.
Qed.

Lemma script_run (backend : Backend) (w : Widgets) (s : World) :
  script backend w s =
    match page_top w s with
    | mkRun t1 s1 (Returned _) =>
        match handle_submission backend w (number_of_initial_queries w)
                (max_research_loops w) s1 with
        | mkRun t2 s2 (Returned _) =>
            match current_sections s2 with
            | mkRun t3 s3 o => mkRun (t1 ++ t2 ++ t3) s3 o
            end
        | mkRun t2 s2 (Raised e) => mkRun (t1 ++ t2) s2 (Raised e)
        end
    | mkRun t1 s1 (Raised e) => mkRun t1 s1 (Raised e)
    end.
Proof.
  unfold script, bind. destruct (page_top w s) as [t1 s1 [[]|e]]; [|reflexivity].
  destruct (handle_submission _ _ _ _ s1) as [t2 s2 [[]|e]]; [|reflexivity].
  destruct (current_sections s2); reflexivity.
Qed.

Lemma calls_graph_at_display (backend : Backend) (w : Widgets) (s : World) :
  calls_graph backend w (world_at_display w s) = calls_graph backend w s.
Proof. reflexivity. Qed.

Lemma calls_graph_without_submit (backend : Backend) (w : Widgets) (s : World) :
  calls_graph backend (without_submit w) s = false.
Proof. reflexivity. Qed.

(** The calls to the graph in one run of the script. *)
Lemma script_invocations (backend : Backend) (w : Widgets) (s : World) :
  invocations (trace (script backend w s)) =
    if reaches_handler w s && calls_graph backend w s
    then [invoke_event w (number_of_initial_queries w) (max_research_loops w)
            (world_at_display w s)]
    else [].
Proof.
  rewrite script_run. unfold reaches_handler.
  pose proof (page_top_invocations w s) as Hp.
  pose proof (page_top_world w s) as Hw.
  destruct (page_top w s) as [t1 s1 [[]|e]]; cbn [trace world outcome] in *;
    [|exact Hp].
  subst s1. cbn [andb].
  pose proof (handle_submission_invocations backend w (number_of_initial_queries w)
                (max_research_loops w) (world_at_display w s)) as Hh.
  rewrite calls_graph_at_display in Hh.
  destruct (handle_submission _ _ _ _ _) as [t2 s2 [[]|e]]; cbn [trace] in *.
  - pose proof (current_sections_invocations s2) as Hc.
    destruct (current_sections s2) as [t3 s3 o]; cbn [trace] in *.
    rewrite !invocations_app, Hp, Hh, Hc, app_nil_r. reflexivity.
  - rewrite invocations_app, Hp, Hh. reflexivity.
Qed.

(** The calls to the graph in one interaction, rerun included. *)
Lemma interaction_invocations (backend : Backend) (w : Widgets) (s : World) :
  invocations (trace (interaction backend w s)) =
    if reaches_handler w s && calls_graph backend w s
    then [invoke_event w (number_of_initial_queries w) (max_research_loops w)
            (world_at_display w s)]
    else [].
Proof.
  rewrite <- script_invocations. unfold interaction.
  destruct (script backend w s) as [t s' [[]|[c msg]]]; [reflexivity|].
  destruct c; try reflexivity.
  pose proof (script_invocations backend (without_submit w) s') as Hr.
  rewrite calls_graph_without_submit, andb_false_r in Hr.
  destruct (script backend (without_submit w) s') as [t' s'' o]; cbn [trace] in *.
  rewrite invocations_app, Hr, app_nil_r. reflexivity.
Qed.

(** ** The submission handler *)

Section Handler.

Context (backend : Backend).

Lemma submission_succeeds_content w nq mrl s result answer h :
  submission_succeeds backend w nq mrl s result answer h ->
  last_message_content result = Ok answer.
Proof.
  intros (_ & _ & _ & _ & _ & (messages & message & Hm & Hl & Hc) & _).
  unfold last_message_content. rewrite Hm. cbn [getitem_last]. rewrite Hl. exact Hc.
Qed.

Lemma handle_submission_succeeds w nq mrl s result answer h :
  submission_succeeds backend w nq mrl s result answer h ->
  handle_submission backend w nq mrl s =
    mkRun [EvSpinner "Agent is processing your request..."; invoke_event w nq mrl s]
          (mkWorld (session_after_success w result answer h (session_state s))
                   (environ_with_key w s))
          (Raised (mkExn RerunException "")).
Proof.
  intros Hok. pose proof (submission_succeeds_content _ _ _ _ _ _ _ Hok) as Hans.
  destruct Hok as (Hsub & Hkey & Hq & Hnul & (g & Himp & Hinv) & _ & Hh).
  rewrite (handle_submission_valid _ _ _ _ _ Hsub Hkey Hq).
  rewrite (process_request_succeeds _ _ _ _ _ _ _ _ _ Himp Hnul Hinv Hans Hh).
  reflexivity.
Qed.

Lemma not_handler_key (k : string) :
  k ∉ handler_keys ->
  "history" ≠ k /\ "current_answer" ≠ k /\ "current_sources" ≠ k /\
  "current_queries" ≠ k /\ "current_reflections" ≠ k.
Proof. unfold handler_keys. intros Hk. repeat split; intros <-; apply Hk; set_solver. Qed.

Lemma session_with_result_frame result answer ss k :
  k ∉ handler_keys -> session_with_result result answer ss !! k = ss !! k.
Proof.
  intros (_ & ? & ? & ? & ?)%not_handler_key. unfold session_with_result.
  rewrite !lookup_insert_ne by assumption. reflexivity.
Qed.

Lemma session_after_success_frame w result answer h ss k :
  k ∉ handler_keys -> session_after_success w result answer h ss !! k = ss !! k.
Proof.
  intros Hk. pose proof (not_handler_key _ Hk) as (? & ? & ? & ? & ?).
  unfold session_after_success. rewrite !lookup_insert_ne by assumption.
  apply session_with_result_frame, Hk.
Qed.

(** The worlds a run of the [try] body can end in once the import has
    succeeded, and in general. *)
Lemma process_request_world_imported w nq mrl s g :
  import_graph backend (environ s) = Ok g ->
  has_nul (api_key w) = false ->
  world (process_request backend w nq mrl s) =
    mkWorld (session_state s) (environ_with_key w s) \/
  (exists result answer,
     world (process_request backend w nq mrl s) =
       mkWorld (session_with_result result answer (session_state s))
               (environ_with_key w s)) \/
  (exists result answer h,
     world (process_request backend w nq mrl s) =
       mkWorld (session_after_success w result answer h (session_state s))
               (environ_with_key w s)).
Proof.
  intros Himp Hnul.
  destruct (invoke g (make_invocation_input (user_question w)) (make_config nq mrl)
              (environ_with_key w s)) as [result|e] eqn:Hinv;
    [|rewrite (process_request_invoke_fails _ _ _ _ _ _ _ Himp Hnul Hinv); auto].
  destruct (last_message_content result) as [answer|e] eqn:Hans;
    [|rewrite (process_request_extraction_fails _ _ _ _ _ _ _ _ Himp Hnul Hinv Hans);
      auto].
  destruct (history_of s) as [h|] eqn:Hh.
  - rewrite (process_request_succeeds _ _ _ _ _ _ _ _ _ Himp Hnul Hinv Hans Hh).
    right; right. eauto.
  - destruct (process_request_append_fails _ _ nq mrl _ _ _ _ Himp Hnul Hinv Hans Hh)
      as (e & _ & ->). right; left. eauto.
Qed.

Lemma process_request_world w nq mrl s :
  world (process_request backend w nq mrl s) = s \/
  world (process_request backend w nq mrl s) =
    mkWorld (session_state s) (environ_with_key w s) \/
  (exists result answer,
     world (process_request backend w nq mrl s) =
       mkWorld (session_with_result result answer (session_state s))
               (environ_with_key w s)) \/
  (exists result answer h,
     world (process_request backend w nq mrl s) =
       mkWorld (session_after_success w result answer h (session_state s))
               (environ_with_key w s)).
Proof.
  destruct (import_graph backend (environ s)) as [g|e] eqn:Himp.
  - destruct (has_nul (api_key w)) eqn:Hnul.
    + rewrite (process_request_key_rejected _ _ _ _ _ _ Himp Hnul). auto.
    + right. exact (process_request_world_imported w nq mrl s g Himp Hnul).
  - rewrite (process_request_import_fails _ _ _ _ _ _ Himp). auto.
Qed.


Lemma handle_submission_world w nq mrl s :
  world (handle_submission backend w nq mrl s) = s \/
  world (handle_submission backend w nq mrl s) =
    world (process_request backend w nq mrl s).
Proof.
  unfold handle_submission.
  destruct (submit_button w); [|auto].
  destruct (truthy (PyStr (api_key w))); [|auto].
  destruct (truthy (PyStr (user_question w))); [|auto].
  cbn [negb]. rewrite spinner_try_run. unfold under_spinner. cbn [world].
  rewrite world_caught. auto.
Qed.

Lemma handle_submission_frame w nq mrl s k :
  k ∉ handler_keys ->
  session_state (world (handle_submission backend w nq mrl s)) !! k = session_state s !! k.
Proof.
  intros Hk. destruct (handle_submission_world w nq mrl s) as [-> | ->]; [reflexivity|].
  destruct (process_request_world w nq mrl s)
    as [-> | [-> | [(result & answer & ->) | (result & answer & h & ->)]]];
    cbn [session_state]; auto using session_with_result_frame, session_after_success_frame.
Qed.

End Handler.

(** ** The claims about the submission handler *)

(** C4.  When the form is submitted with an empty API key, the handler shows
    the error "Please enter your Gemini API Key."; when the key is filled in
    but the question is empty, it shows "Please enter your question.".  In
    both cases that error box is all the handler does: it returns with the
    session state and the environment as they were, and the graph is not
    called. *)
Theorem validation_messages (backend : Backend) (w : Widgets) (nq mrl : Z) (s : World) :
  submit_button w = true ->
  (api_key w = "" ->
   handle_submission backend w nq mrl s =
     mkRun [EvError "Please enter your Gemini API Key."] s (Returned tt)) /\
  (api_key w ≠ "" -> user_question w = "" ->
   handle_submission backend w nq mrl s =
     mkRun [EvError "Please enter your question."] s (Returned tt)).
Proof.
  intros Hsub. split.
  - intros Hkey. exact (handle_submission_no_key backend w nq mrl s Hsub Hkey).
  - intros Hkey Hq. exact (handle_submission_no_question backend w nq mrl s Hsub Hkey Hq).
Qed.

Lemma validation_messages_witness :
  handle_submission backend_ready form_without_key 3 2 fresh_session =
    mkRun [EvError "Please enter your Gemini API Key."] fresh_session (Returned tt) /\
  handle_submission backend_ready form_without_question 3 2 fresh_session =
    mkRun [EvError "Please enter your question."] fresh_session (Returned tt).
Proof.
  split.
  - apply (validation_messages backend_ready form_without_key 3 2 fresh_session);
      reflexivity.
  - apply (validation_messages backend_ready form_without_question 3 2 fresh_session);
      [reflexivity | discriminate | reflexivity].
Defined.




(** C7, as stated, fails: a [KeyboardInterrupt] raised by the call is not an
    [Exception]; neither [except] clause matches it, no error box is shown
    and it leaves the handler. *)
Lemma interrupt_escapes_the_handler :
  invoke (graph_raising (mkExn KeyboardInterrupt ""))
         (make_invocation_input (user_question filled_form)) (make_config 3 2)
         (environ_with_key filled_form fresh_session)
    = Err (mkExn KeyboardInterrupt "") /\
  ~ caught_and_displayed
      (handle_submission backend_interrupted filled_form 3 2 fresh_session) /\
  outcome (handle_submission backend_interrupted filled_form 3 2 fresh_session)
    = Raised (mkExn KeyboardInterrupt "").
Proof.
  split; [reflexivity|]. split; [|vm_compute; reflexivity].
  intros [Hout _]. vm_compute in Hout. discriminate Hout.
Qed.

(** C7, amended.  Every exception derived from [Exception] that the graph
    invocation raises is caught and displayed to the user as an error
    message: the handler returns normally and shows exactly one error box,
    the import-failure text for an [ImportError] and otherwise "An error
    occurred while processing your request: " followed by the exception's
    message.  (The invocation takes place: the import has succeeded and the
    environment has accepted the key.) *)
Theorem ordinary_exceptions_are_displayed (backend : Backend) (w : Widgets)
    (nq mrl : Z) (s : World) (g : Graph) (e : Exn) :
  submit_button w = true -> api_key w ≠ "" -> user_question w ≠ "" ->
  import_graph backend (environ s) = Ok g ->
  has_nul (api_key w) = false ->
  invoke g (make_invocation_input (user_question w)) (make_config nq mrl)
         (environ_with_key w s) = Err e ->
  is_Exception e = true ->
  caught_and_displayed (handle_submission backend w nq mrl s) /\
  errors_shown (trace (handle_submission backend w nq mrl s)) = [error_message e].
Proof.
  intros Hsub Hkey Hq Himp Hnul Hinv He.
  rewrite (handle_submission_valid _ _ _ _ _ Hsub Hkey Hq).
  rewrite (process_request_invoke_fails _ _ _ _ _ _ _ Himp Hnul Hinv).
  unfold caught_and_displayed, caught, under_spinner, error_message.
  destruct (is_ImportError e); [|rewrite He]; cbn; eauto.
Qed.

Lemma ordinary_exceptions_are_displayed_witness :
  caught_and_displayed (handle_submission backend_failing filled_form 3 2 fresh_session) /\
  errors_shown (trace (handle_submission backend_failing filled_form 3 2 fresh_session))
    = ["An error occurred while processing your request: quota exceeded"].
Proof.
  apply (ordinary_exceptions_are_displayed backend_failing filled_form 3 2 fresh_session
           (graph_raising (mkExn RuntimeError "quota exceeded"))
           (mkExn RuntimeError "quota exceeded"));
    [reflexivity | discriminate | discriminate | reflexivity | reflexivity
    | reflexivity | reflexivity].
Defined.

(** C8.  If the import of the agent graph, the graph invocation, or the
    extraction of the result raises any exception, the handler leaves
    [st.session_state.history] as it was: nothing is appended. *)
Theorem history_unchanged_on_failure (backend : Backend) (w : Widgets)
    (nq mrl : Z) (s : World) :
  (exists e, import_graph backend (environ s) = Err e) \/
  (exists g e,
     import_graph backend (environ s) = Ok g /\
     invoke g (make_invocation_input (user_question w)) (make_config nq mrl)
            (environ_with_key w s) = Err e) \/
  (exists g result,
     import_graph backend (environ s) = Ok g /\
     invoke g (make_invocation_input (user_question w)) (make_config nq mrl)
            (environ_with_key w s) = Ok result /\
     extraction_raises result) ->
  session_state (world (handle_submission backend w nq mrl s)) !! "history"
    = session_state s !! "history".
Proof.
  intros Hfail.
  destruct (handle_submission_world backend w nq mrl s) as [-> | ->]; [reflexivity|].
  destruct Hfail as [(e & Himp) | [(g & e & Himp & Hinv) | (g & result & Himp & Hinv & Hex)]].
  - rewrite (process_request_import_fails _ _ _ _ _ _ Himp). reflexivity.
  - destruct (has_nul (api_key w)) eqn:Hnul;
      [rewrite (process_request_key_rejected _ _ _ _ _ _ Himp Hnul); reflexivity|].
    rewrite (process_request_invoke_fails _ _ _ _ _ _ _ Himp Hnul Hinv). reflexivity.
  - destruct (has_nul (api_key w)) eqn:Hnul;
      [rewrite (process_request_key_rejected _ _ _ _ _ _ Himp Hnul); reflexivity|].
    destruct (last_message_content result) as [answer|e] eqn:Hans.
    + exfalso. destruct (last_message_content_dict _ _ Hans) as [kvs ->].
      destruct Hex as [(e & He) | [(e & He) | [(e & He) | (e & He)]]];
        [congruence | | | ]; rewrite dict_get_field_or_empty in He; discriminate He.
    + rewrite (process_request_extraction_fails _ _ _ _ _ _ _ _ Himp Hnul Hinv Hans).
      reflexivity.
Qed.

Lemma history_unchanged_on_failure_witness :
  session_state
    (world (handle_submission backend_missing filled_form 3 2
              (world_at_display filled_form fresh_session))) !! "history"
    = session_state (world_at_display filled_form fresh_session) !! "history".
Proof.
  apply (history_unchanged_on_failure backend_missing filled_form 3 2
           (world_at_display filled_form fresh_session)).
  left. eexists. reflexivity.
Defined.

(** ** After a successful submission *)

Lemma session_after_success_history w result answer h ss :
  session_after_success w result answer h ss !! "history"
    = Some (PyList (h ++ [history_entry w result answer])).
Proof.
  unfold session_after_success. rewrite !lookup_insert_ne by done.
  apply lookup_insert_eq.
Qed.

Lemma session_after_success_current w result answer h ss k :
  k ∈ current_keys -> session_after_success w result answer h ss !! k = Some PyNone.
Proof.
  unfold current_keys, session_after_success. intros Hk.
  repeat (apply elem_of_cons in Hk as [-> | Hk]);
    [run_lookup; reflexivity .. | by apply elem_of_nil in Hk].
Qed.

Lemma with_default_lookup_Some key v (ss : gmap string PyVal) k x :
  ss !! k = Some x -> with_default key v ss !! k = Some x.
Proof.
  intros Hk. unfold with_default. destruct (ss !! key) eqn:Hkey; [exact Hk|].
  rewrite lookup_insert_ne; [exact Hk | congruence].
Qed.

Lemma initialised_lookup_Some (ss : gmap string PyVal) k x :
  ss !! k = Some x -> initialised ss !! k = Some x.
Proof.
  intros Hk. unfold initialised. repeat apply with_default_lookup_Some. exact Hk.
Qed.

Lemma world_at_display_current w s k :
  k ∈ current_keys ->
  session_state s !! k = Some PyNone ->
  session_state (world_at_display w s) !! k = Some PyNone.
Proof.
  intros Hk Hs. unfold world_at_display, current_keys in *. cbn [session_state].
  repeat (apply elem_of_cons in Hk as [-> | Hk]);
    [rewrite !lookup_insert_ne by done; apply initialised_lookup_Some, Hs ..
    | by apply elem_of_nil in Hk].
Qed.

Lemma elem_of_current_keys :
  "current_answer" ∈ current_keys /\ "current_sources" ∈ current_keys /\
  "current_queries" ∈ current_keys /\ "current_reflections" ∈ current_keys.
Proof. unfold current_keys. repeat split; repeat constructor. Qed.

Lemma current_sections_hidden (s : World) :
  (forall k, k ∈ current_keys -> session_state s !! k = Some PyNone) ->
  current_sections s = mkRun [] s (Returned tt).
Proof.
  intros Hs. unfold current_sections. destruct s as [ss env]. cbn [session_state] in Hs.
  destruct elem_of_current_keys as (Ha & Hb & Hc & Hd).
  pose proof (Hs _ Ha) as Ha'. pose proof (Hs _ Hb) as Hb'.
  pose proof (Hs _ Hc) as Hc'. pose proof (Hs _ Hd) as Hd'.
  run_step. rewrite Ha'. cbn [truthy]. run_step. rewrite Hb'. cbn [truthy].
  run_step. rewrite Hc'. cbn [truthy]. run_step. rewrite Hd'. reflexivity.
Qed.

(** In a run that the submit button did not trigger, started with the four
    variables reset, no section for the latest response is shown. *)
Lemma rerun_hides_current_sections (backend : Backend) (w : Widgets) (s : World) :
  (forall k, k ∈ current_keys -> session_state s !! k = Some PyNone) ->
  forallb not_current_section (trace (script backend (without_submit w) s)) = true.
Proof.
  intros Hs. rewrite script_run.
  pose proof (page_top_trace not_current_section (without_submit w) s
                ltac:(done) ltac:(done) ltac:(done) ltac:(done) ltac:(done)
                ltac:(done) ltac:(done)) as Hp.
  pose proof (page_top_world (without_submit w) s) as Hw.
  destruct (page_top (without_submit w) s) as [t1 s1 [[]|e]];
    cbn [trace world] in *; [|exact Hp].
  subst s1. rewrite handle_submission_not_submitted by reflexivity.
  rewrite current_sections_hidden by (intros k Hk; apply world_at_display_current; auto).
  cbn [app trace]. rewrite app_nil_r. exact Hp.
Qed.

(** ** The order of the display *)

Lemma bind_assoc {A B C} (m : M A) (k : A -> M B) (k' : B -> M C) (s : World) :
  bind (bind m k) k' s = bind m (fun a => bind (k a) k') s.
Proof.
  unfold bind. destruct (m s) as [t1 s1 [a|e]]; [|reflexivity].
  destruct (k a s1) as [t2 s2 [b|e]]; [|reflexivity].
  destruct (k' b s2) as [t3 s3 o]. rewrite app_assoc. reflexivity.
Qed.

Lemma bind_ext {A B} (m : M A) (k k' : A -> M B) (s : World) :
  (forall a s', k a s' = k' a s') -> bind m k s = bind m k' s.
Proof.
  intros Hk. unfold bind. destruct (m s) as [t s' [a|e]]; [|reflexivity].
  rewrite Hk. reflexivity.
Qed.

Lemma for_each_app_last {A} (xs : list A) (x : A) (body : A -> M unit) (s : World) :
  for_each (xs ++ [x]) body s = (for_each xs body ;; body x) s.
Proof.
  revert s. induction xs as [|y xs IH]; intros s; cbn [for_each app].
  - unfold bind, ret. destruct (body x s) as [t s' [[]|e]]; cbn [app];
      rewrite ?app_nil_r; reflexivity.
  - rewrite bind_assoc. apply bind_ext. intros _ s'. apply IH.
Qed.

Lemma display_history_run (s : World) (entries : list PyVal) :
  history_of s = Some entries ->
  display_history s =
    (emit (EvSubheader "Conversation History") ;;
     (if truthy (PyList entries) then ret tt
      else emit (EvMarkdown "*No history yet. Ask a question above!*")) ;;
     for_each entries render_entry) s.
Proof.
  unfold history_of. intros Hh. destruct s as [ss env]. cbn [session_state] in Hh.
  destruct (ss !! "history") as [hv|] eqn:Hl; [|discriminate].
  destruct hv; try discriminate. injection Hh as ->.
  unfold display_history. run_step. rewrite Hl.
  destruct (truthy (PyList entries)); run_step; rewrite ?Hl; cbn [iter]; run_step;
    destruct (for_each entries render_entry _) as [t s' o]; reflexivity.
Qed.

Lemma ret_bind {A B} (a : A) (k : A -> M B) (s : World) : bind (ret a) k s = k a s.
Proof. unfold bind, ret. destruct (k a s); reflexivity. Qed.

Lemma sample_submission_succeeds :
  submission_succeeds backend_ready filled_form 3 2
    (world_at_display filled_form fresh_session) sample_result sample_answer [].
Proof.
  unfold submission_succeeds. repeat split; try discriminate.
  - eexists. split; reflexivity.
  - eexists _, _. repeat split; reflexivity.
Qed.

(** C2.  On every successful submission the entry appended to the history
    holds the agent's outputs exactly: its answer is the content of the last
    element of [result["messages"]], and its sources, queries and
    reflections are [result["sources_gathered"]],
    [result["generated_queries"]] and [result["reflection_notes"]], each
    replaced by the empty list when the key is absent. *)
Theorem entry_renders_result (backend : Backend) (w : Widgets) (nq mrl : Z)
    (s : World) (result answer : PyVal) (h : list PyVal) :
  submission_succeeds backend w nq mrl s result answer h ->
  exists entry,
    history_of (world (handle_submission backend w nq mrl s)) = Some (h ++ [entry]) /\
    getitem entry "answer" = Ok answer /\
    getitem entry "sources" = Ok (field_or_empty result "sources_gathered") /\
    getitem entry "queries" = Ok (field_or_empty result "generated_queries") /\
    getitem entry "reflections" = Ok (field_or_empty result "reflection_notes").
Proof.
  intros Hok. rewrite (handle_submission_succeeds _ _ _ _ _ _ _ _ Hok).
  exists (history_entry w result answer). split; [|repeat split].
  unfold history_of. cbn [world session_state].
  rewrite session_after_success_history. reflexivity.
Qed.

Lemma entry_renders_result_witness :
  exists entry,
    history_of (world (handle_submission backend_ready filled_form 3 2
                         (world_at_display filled_form fresh_session)))
      = Some ([] ++ [entry]) /\
    getitem entry "answer" = Ok sample_answer /\
    getitem entry "sources" = Ok (field_or_empty sample_result "sources_gathered") /\
    getitem entry "queries" = Ok (field_or_empty sample_result "generated_queries") /\
    getitem entry "reflections" = Ok (field_or_empty sample_result "reflection_notes").
Proof.
  apply (entry_renders_result backend_ready filled_form 3 2
           (world_at_display filled_form fresh_session) sample_result sample_answer []).
  exact sample_submission_succeeds.
Defined.

(** C10.  The handler modifies no session-state key other than [history]
    and the four [current_*] variables; and after every successful
    submission the four are [None] when [st.rerun()] is raised, so that the
    rerun shows none of the "Current ..." sections. *)
Theorem current_fields_reset (backend : Backend) (w : Widgets) (nq mrl : Z) (s : World) :
  (forall k, k ∉ handler_keys ->
     session_state (world (handle_submission backend w nq mrl s)) !! k
       = session_state s !! k) /\
  (forall result answer h,
     submission_succeeds backend w nq mrl s result answer h ->
     outcome (handle_submission backend w nq mrl s) = Raised (mkExn RerunException "") /\
     (forall k, k ∈ current_keys ->
        session_state (world (handle_submission backend w nq mrl s)) !! k
          = Some PyNone) /\
     forallb not_current_section
       (trace (script backend (without_submit w)
                 (world (handle_submission backend w nq mrl s)))) = true).
Proof.
  split; [intros k Hk; apply handle_submission_frame, Hk|].
  intros result answer h Hok.
  rewrite (handle_submission_succeeds _ _ _ _ _ _ _ _ Hok). cbn [outcome world].
  split; [reflexivity|].
  assert (forall k, k ∈ current_keys ->
            session_state
              (mkWorld (session_after_success w result answer h (session_state s))
                       (environ_with_key w s)) !! k = Some PyNone) as Hcur.
  { intros k Hk. cbn [session_state]. apply session_after_success_current, Hk. }
  split; [exact Hcur|].
  apply rerun_hides_current_sections, Hcur.
Qed.

Lemma current_fields_reset_witness :
  outcome (handle_submission backend_ready filled_form 3 2
             (world_at_display filled_form fresh_session))
    = Raised (mkExn RerunException "") /\
  (forall k, k ∈ current_keys ->
     session_state
       (world (handle_submission backend_ready filled_form 3 2
                 (world_at_display filled_form fresh_session))) !! k = Some PyNone) /\
  forallb not_current_section
    (trace (script backend_ready (without_submit filled_form)
              (world (handle_submission backend_ready filled_form 3 2
                        (world_at_display filled_form fresh_session))))) = true.
Proof.
  apply (proj2 (current_fields_reset backend_ready filled_form 3 2
                  (world_at_display filled_form fresh_session))
           sample_result sample_answer []).
  exact sample_submission_succeeds.
Defined.

(** ** Calls to the graph over a whole interaction *)



Lemma number_input_bounds (lo hi value : Z) (entry : option Z) :
  (lo ≤ value ≤ hi)%Z -> (lo ≤ number_input lo hi value entry ≤ hi)%Z.
Proof.
  intros Hv. unfold number_input. destruct entry as [n|]; [|exact Hv].
  case_bool_decide; assumption.
Qed.

(** C9.  The configuration passed to every call of the graph carries a
    [number_of_initial_queries] between 1 and 10 and a [max_research_loops]
    between 1 and 5, which are 3 and 2 when the user has not touched the
    sidebar number inputs. *)
Theorem config_within_bounds (backend : Backend) (w : Widgets) (s : World)
    (input config : PyVal) (env : gmap string string) :
  EvInvoke input config env ∈ trace (interaction backend w s) ->
  exists configurable n m,
    getitem config "configurable" = Ok configurable /\
    getitem configurable "number_of_initial_queries" = Ok (PyInt n) /\
    getitem configurable "max_research_loops" = Ok (PyInt m) /\
    (1 ≤ n ≤ 10)%Z /\ (1 ≤ m ≤ 5)%Z /\
    (initial_queries_entry w = None -> n = 3%Z) /\
    (research_loops_entry w = None -> m = 2%Z).
Proof.
  intros Hin.
  assert (EvInvoke input config env ∈ invocations (trace (interaction backend w s))) as Hinv.
  { unfold invocations. apply list_elem_of_filter. split; [reflexivity | exact Hin]. }
  rewrite interaction_invocations in Hinv.
  destruct (reaches_handler w s && calls_graph backend w s);
    [|by apply elem_of_nil in Hinv].
  apply list_elem_of_singleton in Hinv. unfold invoke_event in Hinv.
  injection Hinv as _ -> _.
  eexists _, (number_of_initial_queries w), (max_research_loops w).
  split; [reflexivity|]. split; [reflexivity|]. split; [reflexivity|].
  unfold number_of_initial_queries, max_research_loops.
  split; [apply number_input_bounds; lia|]. split; [apply number_input_bounds; lia|].
  split; intros ->; reflexivity.
Qed.

Lemma config_within_bounds_witness :
  exists configurable n m,
    getitem (make_config 3 2) "configurable" = Ok configurable /\
    getitem configurable "number_of_initial_queries" = Ok (PyInt n) /\
    getitem configurable "max_research_loops" = Ok (PyInt m) /\
    (1 ≤ n ≤ 10)%Z /\ (1 ≤ m ≤ 5)%Z /\
    (initial_queries_entry filled_form = None -> n = 3%Z) /\
    (research_loops_entry filled_form = None -> m = 2%Z).
Proof.
  apply (config_within_bounds backend_ready filled_form fresh_session
           (make_invocation_input (user_question filled_form)) (make_config 3 2)
           (environ_with_key filled_form fresh_session)).
  vm_compute. repeat constructor.
Defined.

(** ** Rendering malformed entries *)

Lemma never_raises_for_each {A} (xs : list A) (body : A -> M unit) :
  (forall x, never_raises (body x)) -> never_raises (for_each xs body).
Proof.
  intros Hbody. induction xs as [|x xs IH]; intros s; cbn [for_each].
  - eexists. reflexivity.
  - unfold bind. destruct (Hbody x s) as [[] Hx].
    destruct (body x s) as [t s' o]; cbn [outcome] in Hx; subst o.
    destruct (IH s') as [[] Hxs].
    destruct (for_each xs body s') as [t' s'' o]; cbn [outcome] in *; subst o.
    eexists. reflexivity.
Qed.

(** Whatever the element, a source is shown in one of the three ways. *)
Lemma render_source_never_raises (source_item : PyVal) :
  never_raises (render_source source_item).
Proof.
  intros s. unfold render_source.
  destruct source_item; cbn [is_dict is_str]; try (eexists; reflexivity).
  cbn [contains eval]. rewrite ret_bind.
  destruct (assoc "url" kvs) as [url|] eqn:Hurl; [|eexists; reflexivity].
  cbn [getitem dict_get]. rewrite Hurl. cbn [eval]. rewrite ret_bind.
  destruct (assoc "title" kvs); cbn [eval]; rewrite !ret_bind; eexists; reflexivity.
Qed.

(** Whatever the element, a query is shown in one of the four ways. *)
Lemma render_query_never_raises (q_item : PyVal) :
  never_raises (render_query q_item).
Proof.
  assert (forall x, never_raises (render_query_object x)) as Hobj.
  { intros x s. unfold render_query_object, try_except.
    destruct (getattr x "query") as [query|e] eqn:Hq.
    - cbn [eval]. rewrite ret_bind. eexists. reflexivity.
    - assert (is_AttributeError e = true) as He.
      { unfold getattr in Hq. destruct x; try (injection Hq as <-; reflexivity).
        destruct (assoc "query" attrs); [discriminate|]. injection Hq as <-. reflexivity. }
      cbn [eval]. unfold bind, raise. rewrite He. eexists. reflexivity. }
  intros s. unfold render_query.
  destruct q_item; cbn [is_dict is_str]; try apply Hobj; try (eexists; reflexivity).
  cbn [contains eval]. rewrite ret_bind.
  destruct (assoc "query" kvs) as [query|] eqn:Hquery; [|apply Hobj].
  cbn [getitem dict_get]. rewrite Hquery. cbn [eval]. rewrite ret_bind.
  destruct (assoc "rationale" kvs); cbn [eval]; rewrite !ret_bind; eexists; reflexivity.
Qed.

(** The sources and the queries of an entry are rendered without raising,
    whatever the elements of the two lists. *)
Lemma render_sources_never_raises (kvs : list (string * PyVal)) (items : list PyVal) :
  assoc "sources" kvs = Some (PyList items) ->
  never_raises (render_sources (PyDict kvs)).
Proof.
  intros Hs s. unfold render_sources. cbn [dict_get getitem]. rewrite Hs.
  cbn [eval]. rewrite ret_bind.
  destruct (truthy (PyList items)); [|eexists; reflexivity].
  unfold bind at 1. cbn [emit]. rewrite !ret_bind. cbn [iter eval]. rewrite ret_bind.
  destruct (never_raises_for_each items render_source render_source_never_raises s)
    as [[] Hr].
  destruct (for_each items render_source s) as [t s' o]; cbn [outcome] in *; subst o.
  eexists. reflexivity.
Qed.

Lemma render_queries_never_raises (kvs : list (string * PyVal)) (items : list PyVal) :
  assoc "queries" kvs = Some (PyList items) ->
  never_raises (render_queries (PyDict kvs)).
Proof.
  intros Hs s. unfold render_queries. cbn [dict_get getitem]. rewrite Hs.
  cbn [eval]. rewrite ret_bind.
  destruct (truthy (PyList items)); [|eexists; reflexivity].
  unfold bind at 1. cbn [emit]. rewrite !ret_bind. cbn [iter eval]. rewrite ret_bind.
  destruct (never_raises_for_each items render_query render_query_never_raises s)
    as [[] Hr].
  destruct (for_each items render_query s) as [t s' o]; cbn [outcome] in *; subst o.
  eexists. reflexivity.
Qed.

(** C6.  The claim asks that rendering never raises whatever the elements
    of the three lists.  The sources and the queries are rendered that way;
    the reflections are not: a reflection that is a string has no [get], and
    [note.get] raises [AttributeError] in the display loop.  A graph that
    returns such a note makes the rerun after the submission fail, and every
    later run of the script with it, since the entry stays in the history. *)
Theorem text_reflection_breaks_the_display :
  outcome (render_entry entry_with_text_reflection fresh_session)
    = Raised (mkExn AttributeError "'str' object has no attribute 'get'") /\
  history_of (world (interaction backend_text_reflection filled_form fresh_session))
    = Some [entry_with_text_reflection] /\
  outcome (interaction backend_text_reflection filled_form fresh_session)
    = Raised (mkExn AttributeError "'str' object has no attribute 'get'") /\
  outcome (interaction backend_ready (without_submit filled_form)
             (world (interaction backend_text_reflection filled_form fresh_session)))
    = Raised (mkExn AttributeError "'str' object has no attribute 'get'").
Proof. repeat split; vm_compute; reflexivity. Qed.

(** ** Which fragments return *)

Lemma returns_bind {A B} (m : M A) (k : A -> M B) (s : World) :
  world (m s) = s ->
  returns (bind m k) s =
    match outcome (m s) with
    | Returned a => returns (k a) s
    | Raised _ => false
    end.
Proof.
  unfold returns, bind. destruct (m s) as [t s' [a|e]]; cbn [world outcome].
  - intros ->. destruct (k a s) as [t' s'' o]. reflexivity.
  - reflexivity.
Qed.

Lemma returns_eval_bind {A B} (r : Res A) (k : A -> M B) (s : World) :
  returns (bind (eval r) k) s =
    match r with
    | Ok a => returns (k a) s
    | Err _ => false
    end.
Proof. destruct r; [|reflexivity]. cbn [eval]. unfold returns. rewrite ret_bind. reflexivity. Qed.

Lemma returns_emit_bind {B} (ev : Event) (k : unit -> M B) (s : World) :
  returns (bind (emit ev) k) s = returns (k tt) s.
Proof. unfold returns, bind, emit. destruct (k tt s). reflexivity. Qed.

Lemma returns_never_raises {A} (m : M A) (s : World) :
  never_raises m -> returns m s = true.
Proof. intros Hm. unfold returns. destruct (Hm s) as [a ->]. reflexivity. Qed.

Lemma returns_true {A} (m : M A) (s : World) :
  returns m s = true <-> exists a, outcome (m s) = Returned a.
Proof.
  unfold returns. destruct (outcome (m s)) as [a|e]; split; eauto; try discriminate.
  intros [a Ha]. discriminate Ha.
Qed.

Lemma returns_for_each {A} (xs : list A) (body : A -> M unit) (s : World) :
  (forall x, world (body x s) = s) ->
  returns (for_each xs body) s = forallb (fun x => returns (body x) s) xs.
Proof.
  intros Hw. induction xs as [|x xs IH]; cbn [for_each forallb]; [reflexivity|].
  rewrite returns_bind by apply Hw. unfold returns at 2.
  destruct (outcome (body x s)); [exact IH | reflexivity].
Qed.

Lemma returns_for_each_indexed {A} (xs : list A) (body : Z -> A -> M unit)
    (ok : A -> bool) (i : Z) (s : World) :
  (forall j x, world (body j x s) = s) ->
  (forall j x, returns (body j x) s = ok x) ->
  returns (for_each_indexed i xs body) s = forallb ok xs.
Proof.
  intros Hw Hok. revert i. induction xs as [|x xs IH]; intros i;
    cbn [for_each_indexed forallb]; [reflexivity|].
  rewrite returns_bind by apply Hw. rewrite <- (Hok i x). unfold returns at 2.
  destruct (outcome (body i x s)); [apply IH | reflexivity].
Qed.

(** The fragments of the display leave the world as it is. *)
Lemma render_source_world (x : PyVal) (s : World) : world (render_source x s) = s.
Proof. apply (display_only_render_source (fun _ => true)). done. Qed.

Lemma render_query_world (x : PyVal) (s : World) : world (render_query x s) = s.
Proof. apply (display_only_render_query (fun _ => true)). done. Qed.

Lemma render_reflection_world (i : Z) (x : PyVal) (s : World) :
  world (render_reflection i x s) = s.
Proof. apply (display_only_render_reflection (fun _ => true)). done. Qed.

Lemma render_entry_world (entry : PyVal) (s : World) : world (render_entry entry s) = s.
Proof. apply (display_only_render_entry (fun _ => true)); done. Qed.

Ltac returns_step :=
  repeat (first [rewrite returns_emit_bind | rewrite returns_eval_bind]; cbv beta iota).

Lemma returns_render_reflection (i : Z) (note : PyVal) (s : World) :
  returns (render_reflection i note) s = reflection_ok note.
Proof.
  unfold render_reflection. returns_step.
  destruct note; cbn [dict_get reflection_ok]; try reflexivity.
  2:{ destruct (assoc "get" attrs); reflexivity. }
  destruct (assoc "is_sufficient" kvs); returns_step.
  all: destruct (assoc "knowledge_gap" kvs); returns_step.
  all: cbn [contains getitem]; destruct (assoc "follow_up_queries" kvs) as [v|];
    returns_step; try reflexivity.
  all: unfold follow_up_ok; destruct (truthy v); returns_step; try reflexivity.
  all: destruct (str_join ", " v); reflexivity.
Qed.

Lemma returns_seq {A B} (m : M A) (k : M B) (s : World) :
  world (m s) = s -> returns (bind m (fun _ => k)) s = returns m s && returns k s.
Proof.
  intros Hw. rewrite returns_bind by exact Hw. unfold returns at 2.
  destruct (outcome (m s)); reflexivity.
Qed.

Lemma returns_ret {A} (a : A) (s : World) : returns (ret a) s = true.
Proof. reflexivity. Qed.

Lemma returns_emit (ev : Event) (s : World) : returns (emit ev) s = true.
Proof. reflexivity. Qed.

Lemma forallb_pointwise {A} (f g : A -> bool) (xs : list A) :
  (forall x, f x = g x) -> forallb f xs = forallb g xs.
Proof.
  intros Hfg. induction xs as [|x xs IH]; [reflexivity|]. cbn. rewrite Hfg, IH. reflexivity.
Qed.

Section SectionsAreDisplayOnly.

Context (P : Event -> bool).
Context (HP_markdown : forall s, P (EvMarkdown s) = true).

Lemma display_only_render_sources (entry : PyVal) : display_only P (render_sources entry).
Proof.
  unfold render_sources.
  repeat first [apply display_only_render_source | display_only_step]; auto.
Qed.

Lemma display_only_render_queries (entry : PyVal) : display_only P (render_queries entry).
Proof.
  unfold render_queries.
  repeat first [apply display_only_render_query | display_only_step]; auto.
Qed.

Lemma display_only_render_reflections (entry : PyVal) :
  display_only P (render_reflections entry).
Proof.
  unfold render_reflections.
  repeat first [apply display_only_render_reflection | display_only_step]; auto.
Qed.

End SectionsAreDisplayOnly.

Lemma render_sources_world (entry : PyVal) (s : World) : world (render_sources entry s) = s.
Proof. apply (display_only_render_sources (fun _ => true)). done. Qed.

Lemma render_queries_world (entry : PyVal) (s : World) : world (render_queries entry s) = s.
Proof. apply (display_only_render_queries (fun _ => true)). done. Qed.

Lemma render_reflections_world (entry : PyVal) (s : World) :
  world (render_reflections entry s) = s.
Proof. apply (display_only_render_reflections (fun _ => true)). done. Qed.

Lemma returns_render_sources (kvs : list (string * PyVal)) (s : World) :
  returns (render_sources (PyDict kvs)) s = section_ok (fun _ => true) (assoc "sources" kvs).
Proof.
  unfold render_sources. cbn [dict_get getitem section_ok].
  destruct (assoc "sources" kvs) as [v|]; returns_step; cbn [section_ok]; [|reflexivity].
  destruct (truthy v); [|reflexivity]. returns_step.
  destruct (iter v) as [items|e]; [|reflexivity].
  rewrite returns_for_each by (intros; apply render_source_world).
  apply forallb_pointwise. intros x. apply returns_never_raises, render_source_never_raises.
Qed.

Lemma returns_render_queries (kvs : list (string * PyVal)) (s : World) :
  returns (render_queries (PyDict kvs)) s = section_ok (fun _ => true) (assoc "queries" kvs).
Proof.
  unfold render_queries. cbn [dict_get getitem section_ok].
  destruct (assoc "queries" kvs) as [v|]; returns_step; cbn [section_ok]; [|reflexivity].
  destruct (truthy v); [|reflexivity]. returns_step.
  destruct (iter v) as [items|e]; [|reflexivity].
  rewrite returns_for_each by (intros; apply render_query_world).
  apply forallb_pointwise. intros x. apply returns_never_raises, render_query_never_raises.
Qed.

Lemma returns_render_reflections (kvs : list (string * PyVal)) (s : World) :
  returns (render_reflections (PyDict kvs)) s
    = section_ok reflection_ok (assoc "reflections" kvs).
Proof.
  unfold render_reflections. cbn [dict_get getitem section_ok].
  destruct (assoc "reflections" kvs) as [v|]; returns_step; cbn [section_ok]; [|reflexivity].
  destruct (truthy v); [|reflexivity]. returns_step.
  destruct (iter v) as [items|e]; [|reflexivity].
  apply returns_for_each_indexed.
  - intros. apply render_reflection_world.
  - intros. apply returns_render_reflection.
Qed.

Lemma returns_render_entry (entry : PyVal) (s : World) :
  returns (render_entry entry) s = entry_renderable entry.
Proof.
  unfold render_entry. returns_step.
  destruct entry; cbn [getitem entry_renderable]; try reflexivity.
  destruct (assoc "question" kvs) as [question|]; [|reflexivity]. returns_step.
  destruct (assoc "answer" kvs) as [answer|]; [|reflexivity].
  destruct answer; cbn [str_add]; try reflexivity. returns_step.
  rewrite returns_seq by apply render_sources_world.
  rewrite returns_seq by apply render_queries_world.
  rewrite returns_seq by apply render_reflections_world.
  rewrite returns_render_sources, returns_render_queries, returns_render_reflections.
  rewrite returns_emit, andb_true_r, andb_assoc. reflexivity.
Qed.

Lemma returns_display_history (s : World) (h : list PyVal) :
  history_of s = Some h ->
  returns display_history s = forallb entry_renderable h.
Proof.
  intros Hh. unfold returns. rewrite (display_history_run _ _ Hh). fold (returns
    (emit (EvSubheader "Conversation History") ;;
     (if truthy (PyList h) then ret tt
      else emit (EvMarkdown "*No history yet. Ask a question above!*")) ;;
     for_each h render_entry) s).
  returns_step. rewrite returns_seq by (destruct (truthy (PyList h)); reflexivity).
  rewrite returns_for_each by (intros; apply render_entry_world).
  replace (returns (if truthy (PyList h) then ret tt
                    else emit (EvMarkdown "*No history yet. Ask a question above!*")) s)
    with true by (destruct (truthy (PyList h)); reflexivity).
  cbn [andb]. apply forallb_pointwise. intros x. apply returns_render_entry.
Qed.

(** ** The worlds a run and an interaction end in *)

Lemma current_sections_world (s : World) : world (current_sections s) = s.
Proof. apply (display_only_current_sections (fun _ => true)); done. Qed.

Lemma script_world (backend : Backend) (w : Widgets) (s : World) :
  world (script backend w s) = world_at_display w s \/
  world (script backend w s) =
    world (handle_submission backend w (number_of_initial_queries w)
             (max_research_loops w) (world_at_display w s)).
Proof.
  rewrite script_run. pose proof (page_top_world w s) as Hw.
  destruct (page_top w s) as [t1 s1 [[]|e]]; cbn [world] in Hw; subst s1; [|auto].
  destruct (handle_submission _ _ _ _ _) as [t2 s2 [[]|e]]; cbn [world]; [|auto].
  pose proof (current_sections_world s2) as Hc.
  destruct (current_sections s2) as [t3 s3 o]; cbn [world] in *. subst s3. auto.
Qed.

Lemma script_world_without_submit (backend : Backend) (w : Widgets) (s : World) :
  world (script backend (without_submit w) s) = world_at_display (without_submit w) s.
Proof.
  destruct (script_world backend (without_submit w) s) as [-> | ->]; [reflexivity|].
  rewrite handle_submission_not_submitted by reflexivity. reflexivity.
Qed.

Lemma interaction_world (backend : Backend) (w : Widgets) (s : World) :
  world (interaction backend w s) = world (script backend w s) \/
  world (interaction backend w s) =
    world_at_display (without_submit w) (world (script backend w s)).
Proof.
  unfold interaction.
  destruct (script backend w s) as [t s' [[]|[c msg]]]; [auto|].
  destruct c; auto. right. cbn [world].
  pose proof (script_world_without_submit backend w s') as Hr.
  destruct (script backend (without_submit w) s'); exact Hr.
Qed.

(** A relation between the world before and the world after that holds
    across the display and across the handler holds across an
    interaction. *)
Lemma interaction_preserves (R : World -> World -> Prop) :
  (forall a b c, R a b -> R b c -> R a c) ->
  (forall w s, R s (world_at_display w s)) ->
  (forall backend w nq mrl s, R s (world (handle_submission backend w nq mrl s))) ->
  forall backend w s, R s (world (interaction backend w s)).
Proof.
  intros Htrans Hdisplay Hhandle backend w s.
  assert (R s (world (script backend w s))) as Hscript.
  { destruct (script_world backend w s) as [-> | ->]; [apply Hdisplay|].
    eapply Htrans; [apply Hdisplay | apply Hhandle]. }
  destruct (interaction_world backend w s) as [-> | ->]; [exact Hscript|].
  eapply Htrans; [exact Hscript | apply Hdisplay].
Qed.

Lemma with_default_frame key v (ss : gmap string PyVal) k :
  k ≠ key -> with_default key v ss !! k = ss !! k.
Proof.
  intros Hk. unfold with_default. destruct (ss !! key); [reflexivity|].
  apply lookup_insert_ne. congruence.
Qed.

Lemma with_default_lookup key v (ss : gmap string PyVal) :
  with_default key v ss !! key = Some (initial_value key v ss).
Proof.
  unfold with_default, initial_value. destruct (ss !! key) eqn:Hk; [exact Hk|].
  apply lookup_insert_eq.
Qed.

Lemma initial_value_frame key v key' v' (ss : gmap string PyVal) :
  key ≠ key' -> initial_value key v (with_default key' v' ss) = initial_value key v ss.
Proof. intros Hk. unfold initial_value. rewrite with_default_frame by exact Hk. reflexivity. Qed.

Lemma initialised_frame (ss : gmap string PyVal) k :
  k ∉ handler_keys -> initialised ss !! k = ss !! k.
Proof.
  intros (? & ? & ? & ? & ?)%not_handler_key. unfold initialised.
  rewrite !with_default_frame by congruence. reflexivity.
Qed.

Lemma initialised_lookup (ss : gmap string PyVal) :
  initialised ss !! "history" = Some (initial_value "history" (PyList []) ss) /\
  initialised ss !! "current_answer" = Some (initial_value "current_answer" PyNone ss) /\
  initialised ss !! "current_sources" = Some (initial_value "current_sources" PyNone ss) /\
  initialised ss !! "current_queries" = Some (initial_value "current_queries" PyNone ss) /\
  initialised ss !! "current_reflections"
    = Some (initial_value "current_reflections" PyNone ss).
Proof.
  unfold initialised. repeat split.
  - rewrite !with_default_frame by done. apply with_default_lookup.
  - rewrite !with_default_frame by done. rewrite with_default_lookup.
    rewrite !initial_value_frame by done. reflexivity.
  - rewrite !with_default_frame by done. rewrite with_default_lookup.
    rewrite !initial_value_frame by done. reflexivity.
  - rewrite !with_default_frame by done. rewrite with_default_lookup.
    rewrite !initial_value_frame by done. reflexivity.
  - rewrite with_default_lookup. rewrite !initial_value_frame by done. reflexivity.
Qed.

(** ** Further properties of the script *)

(** X1.  Lines 6-15 give each of the five session variables its default (the
    empty list for the history, [None] for the others) exactly when it does
    not exist and keep the value of one that exists; they touch no other
    key, leave the environment alone, write nothing to the page and do not
    raise. *)
Theorem session_variables_initialised (s : World) :
  trace (init_session_state s) = [] /\
  outcome (init_session_state s) = Returned tt /\
  environ (world (init_session_state s)) = environ s /\
  session_state (world (init_session_state s)) !! "history"
    = Some (initial_value "history" (PyList []) (session_state s)) /\
  (forall k, k ∈ current_keys ->
     session_state (world (init_session_state s)) !! k
       = Some (initial_value k PyNone (session_state s))) /\
  (forall k, k ∉ handler_keys ->
     session_state (world (init_session_state s)) !! k = session_state s !! k).
Proof.
  rewrite init_session_state_run. cbn [trace outcome world environ session_state].
  destruct (initialised_lookup (session_state s)) as (Hh & Ha & Hs & Hq & Hr).
  repeat split; try assumption.
  - intros k Hk. unfold current_keys in Hk.
    repeat (apply elem_of_cons in Hk as [-> | Hk]); try assumption.
    by apply elem_of_nil in Hk.
  - intros k Hk. apply initialised_frame, Hk.
Qed.

(** X2.  The display of the history changes neither the session state nor
    the environment, and it writes only headers, chat bubbles, text and
    dividers: no error box and no call to the graph, whatever is stored. *)
Theorem display_history_only_displays (s : World) :
  world (display_history s) = s /\
  forallb is_history_element (trace (display_history s)) = true.
Proof. apply (display_only_display_history is_history_element); done. Qed.

(** Every source and every query is shown as exactly one line of text. *)
Lemma render_source_one_line (x : PyVal) (s : World) :
  exists text, render_source x s = mkRun [EvMarkdown text] s (Returned tt).
Proof.
  unfold render_source.
  destruct x; cbn [is_dict is_str]; try (eexists; reflexivity).
  cbn [contains eval]. rewrite ret_bind.
  destruct (assoc "url" kvs) as [url|] eqn:Hurl; [|eexists; reflexivity].
  cbn [getitem dict_get]. rewrite Hurl. cbn [eval]. rewrite ret_bind.
  destruct (assoc "title" kvs); cbn [eval]; rewrite !ret_bind; eexists; reflexivity.
Qed.

Lemma render_query_one_line (x : PyVal) (s : World) :
  exists text, render_query x s = mkRun [EvMarkdown text] s (Returned tt).
Proof.
  assert (forall y, exists text,
            render_query_object y s = mkRun [EvMarkdown text] s (Returned tt)) as Hobj.
  { intros y. unfold render_query_object, try_except.
    destruct (getattr y "query") as [query|e] eqn:Hq.
    - cbn [eval]. rewrite ret_bind. eexists. reflexivity.
    - assert (is_AttributeError e = true) as He.
      { unfold getattr in Hq. destruct y; try (injection Hq as <-; reflexivity).
        destruct (assoc "query" attrs); [discriminate|]. injection Hq as <-. reflexivity. }
      cbn [eval]. unfold bind, raise. rewrite He. eexists. reflexivity. }
  unfold render_query.
  destruct x; cbn [is_dict is_str]; try apply Hobj; try (eexists; reflexivity).
  cbn [contains eval]. rewrite ret_bind.
  destruct (assoc "query" kvs) as [query|] eqn:Hquery; [|apply Hobj].
  cbn [getitem dict_get]. rewrite Hquery. cbn [eval]. rewrite ret_bind.
  destruct (assoc "rationale" kvs); cbn [eval]; rewrite !ret_bind; eexists; reflexivity.
Qed.

Lemma for_each_one_line {A} (body : A -> M unit) (xs : list A) (s : World) :
  (forall x, exists text, body x s = mkRun [EvMarkdown text] s (Returned tt)) ->
  exists texts,
    length texts = length xs /\
    for_each xs body s = mkRun (EvMarkdown <$> texts) s (Returned tt).
Proof.
  intros Hbody. induction xs as [|x xs (texts & Hlen & IH)].
  - exists []. split; reflexivity.
  - destruct (Hbody x) as [text Hx]. exists (text :: texts).
    split; [cbn; rewrite Hlen; reflexivity|].
    cbn [for_each]. unfold bind. rewrite Hx, IH. reflexivity.
Qed.

(** X3.  A list stored as the sources of an entry is always rendered,
    whatever its elements: nothing for the empty list, and otherwise the
    header followed by exactly one line per element, without raising and
    without changing the world. *)
Theorem sources_render_one_line_each (kvs : list (string * PyVal))
    (items : list PyVal) (s : World) :
  assoc "sources" kvs = Some (PyList items) ->
  exists texts,
    length texts = length items /\
    render_sources (PyDict kvs) s =
      mkRun (match items with
             | [] => []
             | _ :: _ => EvMarkdown "**Sources:**" :: (EvMarkdown <$> texts)
             end) s (Returned tt).
Proof.
  intros Hs.
  destruct (for_each_one_line render_source items s
              (fun x => render_source_one_line x s)) as (texts & Hlen & Hrun).
  exists texts. split; [exact Hlen|].
  unfold render_sources. cbn [dict_get getitem]. rewrite Hs. cbn [eval].
  rewrite ret_bind. destruct items as [|x items]; [reflexivity|].
  replace (truthy (PyList (x :: items))) with true by reflexivity.
  unfold bind at 1. cbn [emit].
  rewrite !ret_bind. cbn [iter eval]. rewrite ret_bind. rewrite Hrun. reflexivity.
Qed.

Lemma sources_render_one_line_each_witness :
  exists texts,
    length texts = length [PyStr "https://example.org"; PyInt 7] /\
    render_sources (PyDict [("sources", PyList [PyStr "https://example.org"; PyInt 7])])
        fresh_session =
      mkRun (EvMarkdown "**Sources:**" :: (EvMarkdown <$> texts)) fresh_session
            (Returned tt).
Proof.
  apply (sources_render_one_line_each
           [("sources", PyList [PyStr "https://example.org"; PyInt 7])]
           [PyStr "https://example.org"; PyInt 7] fresh_session).
  reflexivity.
Defined.

(** X4.  A list stored as the queries of an entry is always rendered,
    whatever its elements (dicts with or without "query", strings, objects
    with or without a [query] attribute, anything else): nothing for the
    empty list, and otherwise the header followed by exactly one line per
    element. *)
Theorem queries_render_one_line_each (kvs : list (string * PyVal))
    (items : list PyVal) (s : World) :
  assoc "queries" kvs = Some (PyList items) ->
  exists texts,
    length texts = length items /\
    render_queries (PyDict kvs) s =
      mkRun (match items with
             | [] => []
             | _ :: _ => EvMarkdown "**Generated Queries:**" :: (EvMarkdown <$> texts)
             end) s (Returned tt).
Proof.
  intros Hs.
  destruct (for_each_one_line render_query items s
              (fun x => render_query_one_line x s)) as (texts & Hlen & Hrun).
  exists texts. split; [exact Hlen|].
  unfold render_queries. cbn [dict_get getitem]. rewrite Hs. cbn [eval].
  rewrite ret_bind. destruct items as [|x items]; [reflexivity|].
  replace (truthy (PyList (x :: items))) with true by reflexivity.
  unfold bind at 1. cbn [emit].
  rewrite !ret_bind. cbn [iter eval]. rewrite ret_bind. rewrite Hrun. reflexivity.
Qed.

Lemma queries_render_one_line_each_witness :
  exists texts,
    length texts = length [PyDict [("rationale", PyStr "no query")]; PyNone] /\
    render_queries
        (PyDict [("queries", PyList [PyDict [("rationale", PyStr "no query")]; PyNone])])
        fresh_session =
      mkRun (EvMarkdown "**Generated Queries:**" :: (EvMarkdown <$> texts))
            fresh_session (Returned tt).
Proof.
  apply (queries_render_one_line_each
           [("queries", PyList [PyDict [("rationale", PyStr "no query")]; PyNone])]
           [PyDict [("rationale", PyStr "no query")]; PyNone] fresh_session).
  reflexivity.
Defined.

Lemma forallb_elem_of {A} (f : A -> bool) (xs : list A) :
  forallb f xs = true <-> forall x, x ∈ xs -> f x = true.
Proof.
  induction xs as [|y xs IH]; cbn [forallb].
  - split; [intros _ x Hx; by apply elem_of_nil in Hx | reflexivity].
  - rewrite andb_true_iff, IH. split.
    + intros [Hy Hxs] x [-> | Hx]%elem_of_cons; auto.
    + intros H. split; [apply H; left | intros x Hx; apply H; right; exact Hx].
Qed.

(** X5.  A list of reflections is rendered without raising exactly when
    every note is a dict whose "follow_up_queries", if present and truthy,
    can be joined (a list of strings, a string, a dict); a note that is a
    string, a number, [None] or an object makes the loop raise. *)
Theorem reflections_render_iff (kvs : list (string * PyVal))
    (items : list PyVal) (s : World) :
  assoc "reflections" kvs = Some (PyList items) ->
  (exists a, outcome (render_reflections (PyDict kvs) s) = Returned a) <->
  (forall note, note ∈ items -> reflection_ok note = true).
Proof.
  intros Hr. rewrite <- returns_true, returns_render_reflections, Hr.
  cbn [section_ok iter]. rewrite <- forallb_elem_of.
  destruct items as [|x items]; [split; reflexivity|].
  replace (truthy (PyList (x :: items))) with true by reflexivity. reflexivity.
Qed.

Lemma reflections_render_iff_witness :
  (exists a,
     outcome (render_reflections
                (PyDict [("reflections",
                          PyList [PyDict [("is_sufficient", PyBool true)]])])
                fresh_session) = Returned a) <->
  (forall note, note ∈ [PyDict [("is_sufficient", PyBool true)]] ->
     reflection_ok note = true).
Proof.
  apply (reflections_render_iff
           [("reflections", PyList [PyDict [("is_sufficient", PyBool true)]])]
           [PyDict [("is_sufficient", PyBool true)]] fresh_session).
  reflexivity.
Defined.

(** X6.  An entry whose answer is not a string (a list of content blocks,
    [None], a number) cannot be concatenated to the "**Answer:**" label: the
    display raises [TypeError], with Python's message naming the type of the
    answer, right after the question was shown, before the answer, the
    sources and the divider. *)
Theorem non_text_answer_raises (kvs : list (string * PyVal))
    (question answer : PyVal) (s : World) :
  assoc "question" kvs = Some question ->
  assoc "answer" kvs = Some answer ->
  is_str answer = false ->
  render_entry (PyDict kvs) s =
    mkRun [EvChatMessage "user"; EvMarkdown (str question); EvChatMessage "assistant"]
          s (Raised (mkExn TypeError
                            ("can only concatenate str (not " +:+ dquote
                             +:+ type_name answer +:+ dquote +:+ ") to str"))).
Proof.
  intros Hq Ha Hstr. unfold render_entry. cbn [getitem]. rewrite Hq, Ha.
  destruct answer; try discriminate Hstr; reflexivity.
Qed.

Lemma non_text_answer_raises_witness :
  render_entry (PyDict entry_with_block_answer) fresh_session =
    mkRun [EvChatMessage "user"; EvMarkdown "What is LangGraph?";
           EvChatMessage "assistant"]
          fresh_session
          (Raised (mkExn TypeError
                         ("can only concatenate str (not " +:+ dquote +:+ "list"
                          +:+ dquote +:+ ") to str"))).
Proof.
  apply (non_text_answer_raises entry_with_block_answer (PyStr "What is LangGraph?")
           (PyList [PyDict [("type", PyStr "text"); ("text", PyStr "A library.")]])
           fresh_session);
    reflexivity.
Defined.

(** X7.  An entry is displayed without raising exactly when it is a dict
    with a question and a string answer whose sources and queries are absent,
    falsy or iterable, and whose reflections are absent, falsy or iterable
    with every note as in X5. *)
Theorem entry_renders_iff (entry : PyVal) (s : World) :
  (exists a, outcome (render_entry entry s) = Returned a) <->
  entry_renderable entry = true.
Proof. rewrite <- returns_true, returns_render_entry. reflexivity. Qed.

(** X8.  The display of the whole history returns exactly when every stored
    entry can be displayed; one entry that cannot makes it raise. *)
Theorem history_displays_iff (s : World) (h : list PyVal) :
  history_of s = Some h ->
  (exists a, outcome (display_history s) = Returned a) <->
  (forall entry, entry ∈ h -> entry_renderable entry = true).
Proof.
  intros Hh. rewrite <- returns_true, (returns_display_history _ _ Hh).
  apply forallb_elem_of.
Qed.

Lemma history_displays_iff_witness :
  (exists a,
     outcome (display_history
                (world (interaction backend_ready filled_form fresh_session)))
       = Returned a) <->
  (forall entry,
     entry ∈ [history_entry filled_form sample_result sample_answer] ->
     entry_renderable entry = true).
Proof.
  apply (history_displays_iff
           (world (interaction backend_ready filled_form fresh_session))
           [history_entry filled_form sample_result sample_answer]).
  vm_compute. reflexivity.
Defined.

(** What the extraction of the answer can raise is an ordinary exception,
    and not an [ImportError]. *)
Lemma last_message_content_error (result : PyVal) (e : Exn) :
  last_message_content result = Err e ->
  is_ImportError e = false /\ is_Exception e = true.
Proof.
  unfold last_message_content, getitem.
  destruct result; try (intros [= <-]; split; reflexivity).
  destruct (assoc "messages" kvs) as [messages|]; [|intros [= <-]; split; reflexivity].
  unfold getitem_last.
  destruct messages; try (intros [= <-]; split; reflexivity).
  - destruct (last (chars s)); intros [= <-]; split; reflexivity.
  - destruct (last xs) as [message|]; [|intros [= <-]; split; reflexivity].
    unfold getattr. destruct message; try (intros [= <-]; split; reflexivity).
    destruct (assoc "content" attrs); [discriminate|]. intros [= <-]. split; reflexivity.
Qed.

(** X9.  When the graph was called and returns a result from which the
    answer cannot be read (no "messages" key, an empty list of messages, a last message
    without content, a result that is not a dict), the handler reports it in
    one error box, "An error occurred while processing your request: "
    followed by the exception's message, and returns; the session state is
    exactly as before, and only [GEMINI_API_KEY] has been set. *)
Theorem malformed_result_is_reported (backend : Backend) (w : Widgets) (nq mrl : Z)
    (s : World) (g : Graph) (result : PyVal) (e : Exn) :
  submit_button w = true -> api_key w ≠ "" -> user_question w ≠ "" ->
  import_graph backend (environ s) = Ok g ->
  has_nul (api_key w) = false ->
  invoke g (make_invocation_input (user_question w)) (make_config nq mrl)
         (environ_with_key w s) = Ok result ->
  last_message_content result = Err e ->
  handle_submission backend w nq mrl s =
    mkRun [EvSpinner "Agent is processing your request...";
           invoke_event w nq mrl s;
           EvError ("An error occurred while processing your request: " +:+ exn_msg e)]
          (mkWorld (session_state s) (environ_with_key w s))
          (Returned tt).
Proof.
  intros Hsub Hkey Hq Himp Hnul Hinv Hans.
  destruct (last_message_content_error _ _ Hans) as [Hi He].
  rewrite (handle_submission_valid _ _ _ _ _ Hsub Hkey Hq).
  rewrite (process_request_extraction_fails _ _ _ _ _ _ _ _ Himp Hnul Hinv Hans).
  unfold caught, under_spinner. rewrite Hi, He. reflexivity.
Qed.

Lemma malformed_result_is_reported_witness :
  handle_submission backend_without_messages filled_form 3 2 fresh_session =
    mkRun [EvSpinner "Agent is processing your request...";
           invoke_event filled_form 3 2 fresh_session;
           EvError "An error occurred while processing your request: 'messages'"]
          (mkWorld (session_state fresh_session)
                   (environ_with_key filled_form fresh_session))
          (Returned tt).
Proof.
  apply (malformed_result_is_reported backend_without_messages filled_form 3 2
           fresh_session (graph_returning (PyDict [("sources_gathered", PyList [])]))
           (PyDict [("sources_gathered", PyList [])])
           (mkExn KeyError "'messages'"));
    [reflexivity | discriminate | discriminate | reflexivity | reflexivity
    | reflexivity | reflexivity].
Defined.

(** The text of the box for two other results: [None], and a last message
    that is a dict. *)
Example malformed_result_none :
  errors_shown
    (trace (handle_submission (mkBackend (fun _ => Ok (graph_returning PyNone)))
              filled_form 3 2 fresh_session))
    = ["An error occurred while processing your request: 'NoneType' object is not subscriptable"].
Proof. vm_compute. reflexivity. Qed.

Example malformed_result_dict_message :
  errors_shown
    (trace (handle_submission
              (mkBackend (fun _ =>
                 Ok (graph_returning
                       (PyDict [("messages", PyList [PyDict [("content", PyStr "x")]])]))))
              filled_form 3 2 fresh_session))
    = ["An error occurred while processing your request: 'dict' object has no attribute 'content'"].
Proof. vm_compute. reflexivity. Qed.


(** X10.  When the import of the agent graph raises an exception derived
    from [Exception], the handler shows one error box (the import-failure
    text for an [ImportError], the generic text with the exception's message
    otherwise) and returns with the session state and the environment
    untouched: the API key is not written to the environment and the graph
    is not called. *)
Theorem failed_import_changes_nothing (backend : Backend) (w : Widgets) (nq mrl : Z)
    (s : World) (e : Exn) :
  submit_button w = true -> api_key w ≠ "" -> user_question w ≠ "" ->
  import_graph backend (environ s) = Err e ->
  is_Exception e = true ->
  handle_submission backend w nq mrl s =
    mkRun [EvSpinner "Agent is processing your request..."; EvError (error_message e)]
          s (Returned tt).
Proof.
  intros Hsub Hkey Hq Himp He.
  rewrite (handle_submission_valid _ _ _ _ _ Hsub Hkey Hq).
  rewrite (process_request_import_fails _ _ _ _ _ _ Himp).
  unfold caught, under_spinner, error_message.
  destruct (is_ImportError e); [reflexivity|]. rewrite He. reflexivity.
Qed.

Lemma failed_import_changes_nothing_witness :
  handle_submission backend_missing filled_form 3 2 fresh_session =
    mkRun [EvSpinner "Agent is processing your request...";
           EvError "Failed to import agent components. Please ensure the backend is correctly set up and all dependencies are installed."]
          fresh_session (Returned tt).
Proof.
  apply (failed_import_changes_nothing backend_missing filled_form 3 2 fresh_session
           (mkExn ModuleNotFoundError "No module named 'backend'"));
    [reflexivity | discriminate | discriminate | reflexivity | reflexivity].
Defined.

Lemma handle_submission_environ (backend : Backend) (w : Widgets) (nq mrl : Z)
    (s : World) (k : string) :
  k ≠ "GEMINI_API_KEY" ->
  environ (world (handle_submission backend w nq mrl s)) !! k = environ s !! k.
Proof.
  intros Hk. destruct (handle_submission_world backend w nq mrl s) as [-> | ->];
    [reflexivity|].
  destruct (process_request_world backend w nq mrl s)
    as [-> | [-> | [(result & answer & ->) | (result & answer & h & ->)]]];
    cbn [environ]; try reflexivity; unfold environ_with_key;
    apply lookup_insert_ne; congruence.
Qed.

(** X11.  Over a whole interaction the script writes no environment variable
    other than [GEMINI_API_KEY]: every other variable has the value it had
    before. *)
Theorem only_the_api_key_variable_is_written (backend : Backend) (w : Widgets)
    (s : World) (k : string) :
  k ≠ "GEMINI_API_KEY" ->
  environ (world (interaction backend w s)) !! k = environ s !! k.
Proof.
  intros Hk.
  apply (interaction_preserves
           (fun a b => environ b !! k = environ a !! k)).
  - intros a b c Hab Hbc. congruence.
  - reflexivity.
  - intros. apply handle_submission_environ, Hk.
Qed.

Lemma only_the_api_key_variable_is_written_witness :
  environ (world (interaction backend_ready filled_form
                    (mkWorld ∅ {["PATH" := "/usr/bin"]}))) !! "PATH"
    = environ (mkWorld ∅ {["PATH" := "/usr/bin"]}) !! "PATH".
Proof.
  apply (only_the_api_key_variable_is_written backend_ready filled_form
           (mkWorld ∅ {["PATH" := "/usr/bin"]}) "PATH").
  discriminate.
Defined.

Lemma world_at_display_frame (w : Widgets) (s : World) (k : string) :
  k ∉ handler_keys -> k ∉ widget_keys ->
  session_state (world_at_display w s) !! k = session_state s !! k.
Proof.
  intros Hh Hw. unfold world_at_display, widget_keys in *. cbn [session_state].
  rewrite !lookup_insert_ne by (intros <-; apply Hw; repeat constructor).
  apply initialised_frame, Hh.
Qed.

(** X12.  Over a whole interaction the script writes no session-state key
    other than the history, the four [current_*] variables and the keys of
    its three widgets: the two text fields and the submit button of the
    form. *)
Theorem interaction_writes_only_its_keys (backend : Backend) (w : Widgets)
    (s : World) (k : string) :
  k ∉ handler_keys -> k ∉ widget_keys ->
  session_state (world (interaction backend w s)) !! k = session_state s !! k.
Proof.
  intros Hh Hw.
  apply (interaction_preserves
           (fun a b => session_state b !! k = session_state a !! k)).
  - intros a b c Hab Hbc. congruence.
  - intros. apply world_at_display_frame; assumption.
  - intros. apply handle_submission_frame, Hh.
Qed.

Lemma interaction_writes_only_its_keys_witness :
  session_state (world (interaction backend_ready filled_form
                          (mkWorld {["theme" := PyStr "dark"]} ∅))) !! "theme"
    = session_state (mkWorld {["theme" := PyStr "dark"]} ∅) !! "theme".
Proof.
  apply (interaction_writes_only_its_keys backend_ready filled_form
           (mkWorld {["theme" := PyStr "dark"]} ∅) "theme").
  - unfold handler_keys. intros H. repeat (apply elem_of_cons in H as [H | H];
      [discriminate H|]). by apply elem_of_nil in H.
  - unfold widget_keys. intros H. repeat (apply elem_of_cons in H as [H | H];
      [discriminate H|]). by apply elem_of_nil in H.
Defined.

Lemma history_of_at_start (s : World) (h : list PyVal) :
  history_of s = Some h -> history_at_start s = Some h.
Proof.
  unfold history_of, history_at_start.
  destruct (session_state s !! "history") as [[]|]; congruence.
Qed.

Lemma world_at_display_history (w : Widgets) (s : World) (h : list PyVal) :
  history_at_start s = Some h -> history_of (world_at_display w s) = Some h.
Proof.
  unfold history_at_start, history_of, world_at_display. cbn [session_state].
  rewrite !lookup_insert_ne by done.
  destruct (initialised_lookup (session_state s)) as (-> & _). unfold initial_value.
  destruct (session_state s !! "history") as [[]|]; congruence.
Qed.

Lemma handle_submission_history (backend : Backend) (w : Widgets) (nq mrl : Z)
    (s : World) (h : list PyVal) :
  history_of s = Some h ->
  history_of (world (handle_submission backend w nq mrl s)) = Some h \/
  exists result answer,
    history_of (world (handle_submission backend w nq mrl s))
      = Some (h ++ [history_entry w result answer]).
Proof.
  intros Hh. destruct (handle_submission_world backend w nq mrl s) as [-> | ->]; [auto|].
  destruct (import_graph backend (environ s)) as [g|e] eqn:Himp;
    [|rewrite (process_request_import_fails _ _ _ _ _ _ Himp); auto].
  destruct (has_nul (api_key w)) eqn:Hnul;
    [rewrite (process_request_key_rejected _ _ _ _ _ _ Himp Hnul); auto|].
  destruct (invoke g (make_invocation_input (user_question w)) (make_config nq mrl)
              (environ_with_key w s)) as [result|e] eqn:Hinv;
    [|rewrite (process_request_invoke_fails _ _ _ _ _ _ _ Himp Hnul Hinv); auto].
  destruct (last_message_content result) as [answer|e] eqn:Hans;
    [|rewrite (process_request_extraction_fails _ _ _ _ _ _ _ _ Himp Hnul Hinv Hans);
      auto].
  rewrite (process_request_succeeds _ _ _ _ _ _ _ _ _ Himp Hnul Hinv Hans Hh).
  right. exists result, answer. unfold history_of. cbn [world session_state].
  rewrite session_after_success_history. reflexivity.
Qed.

(** X13.  An interaction never removes or changes a stored entry: starting
    from the history [h] (the empty one in a fresh session), it ends with
    [h] itself or with [h] followed by one new entry, which carries the
    submitted question. *)
Theorem interaction_appends_at_most_one (backend : Backend) (w : Widgets)
    (s : World) (h : list PyVal) :
  history_at_start s = Some h ->
  history_of (world (interaction backend w s)) = Some h \/
  exists result answer,
    history_of (world (interaction backend w s))
      = Some (h ++ [history_entry w result answer]).
Proof.
  intros Hh.
  pose proof (world_at_display_history w s h Hh) as Hd.
  assert (history_of (world (script backend w s)) = Some h \/
          exists result answer,
            history_of (world (script backend w s))
              = Some (h ++ [history_entry w result answer])) as Hscript.
  { destruct (script_world backend w s) as [-> | ->]; [auto|].
    apply handle_submission_history, Hd. }
  destruct (interaction_world backend w s) as [-> | ->]; [exact Hscript|].
  destruct Hscript as [H1 | (result & answer & H1)]; [left | right; exists result, answer];
    apply world_at_display_history, history_of_at_start, H1.
Qed.

Lemma interaction_appends_at_most_one_witness :
  history_of (world (interaction backend_ready second_form session_with_one_entry))
    = Some [history_entry filled_form sample_result sample_answer] \/
  exists result answer,
    history_of (world (interaction backend_ready second_form session_with_one_entry))
      = Some ([history_entry filled_form sample_result sample_answer]
                ++ [history_entry second_form result answer]).
Proof.
  apply (interaction_appends_at_most_one backend_ready second_form session_with_one_entry
           [history_entry filled_form sample_result sample_answer]).
  vm_compute. reflexivity.
Defined.

(** The second question in the session of the first: the stored entry is
    kept in front of the new one. *)
Example second_submission_keeps_the_first :
  history_of (world (interaction backend_ready second_form session_with_one_entry))
    = Some [history_entry filled_form sample_result sample_answer;
            history_entry second_form sample_result sample_answer].
Proof. vm_compute. reflexivity. Qed.

Lemma for_each_app {A} (xs ys : list A) (body : A -> M unit) (s : World) :
  for_each (xs ++ ys) body s = (for_each xs body ;; for_each ys body) s.
Proof.
  revert s. induction xs as [|x xs IH]; intros s; cbn [for_each app].
  - rewrite ret_bind. reflexivity.
  - rewrite bind_assoc. apply bind_ext. intros _ s'. apply IH.
Qed.

Lemma with_default_present key v (ss : gmap string PyVal) :
  is_Some (ss !! key) -> with_default key v ss = ss.
Proof. intros [x Hx]. unfold with_default. rewrite Hx. reflexivity. Qed.

Lemma world_at_display_idempotent (w : Widgets) (s : World) :
  world_at_display w (world_at_display w s) = world_at_display w s.
Proof.
  unfold world_at_display. cbn [session_state environ]. f_equal.
  set (ss := initialised (session_state s)).
  set (m := <["FormSubmitter:input_form-Submit" := PyBool (submit_button w)]>
              (<["user_question_input" := PyStr (user_question w)]>
                 (<["api_key_input" := PyStr (api_key w)]> ss))).
  assert (initialised m = m) as ->.
  { destruct (initialised_lookup (session_state s)) as (Hh & Ha & Hs & Hq & Hr).
    fold ss in Hh, Ha, Hs, Hq, Hr.
    unfold initialised.
    rewrite (with_default_present "history")
      by (unfold m; rewrite !lookup_insert_ne by done; rewrite Hh; eauto).
    rewrite (with_default_present "current_answer")
      by (unfold m; rewrite !lookup_insert_ne by done; rewrite Ha; eauto).
    rewrite (with_default_present "current_sources")
      by (unfold m; rewrite !lookup_insert_ne by done; rewrite Hs; eauto).
    rewrite (with_default_present "current_queries")
      by (unfold m; rewrite !lookup_insert_ne by done; rewrite Hq; eauto).
    rewrite (with_default_present "current_reflections")
      by (unfold m; rewrite !lookup_insert_ne by done; rewrite Hr; eauto).
    reflexivity. }
  unfold m. apply map_eq. intros k. rewrite !lookup_insert.
  repeat case_decide; reflexivity.
Qed.

(** The keys of the widgets are written: after the display of a submitted
    form the session state holds the key, the question and the button. *)
Example widget_keys_are_written :
  session_state (world_at_display filled_form fresh_session) !! "api_key_input"
    = Some (PyStr "secret-key") /\
  session_state (world_at_display filled_form fresh_session) !! "user_question_input"
    = Some (PyStr "What is LangGraph?") /\
  session_state (world_at_display filled_form fresh_session)
    !! "FormSubmitter:input_form-Submit" = Some (PyBool true).
Proof. repeat split; vm_compute; reflexivity. Qed.

(** X15.  A run that the submit button did not trigger is idempotent: run
    again from the world it leaves, the script shows the same page, ends the
    same way and leaves the same session state and environment. *)
Theorem run_without_submit_is_idempotent (backend : Backend) (w : Widgets) (s : World) :
  script backend (without_submit w) (world (script backend (without_submit w) s))
    = script backend (without_submit w) s.
Proof.
  rewrite script_world_without_submit.
  rewrite (script_run backend (without_submit w) (world_at_display (without_submit w) s)).
  rewrite (script_run backend (without_submit w) s).
  rewrite !page_top_run, world_at_display_idempotent. reflexivity.
Qed.

Lemma dividers_app (t1 t2 : list Event) : dividers (t1 ++ t2) = dividers t1 + dividers t2.
Proof. unfold dividers. rewrite filter_app, length_app. reflexivity. Qed.

Lemma dividers_none (t : list Event) : forallb not_divider t = true -> dividers t = 0.
Proof.
  unfold dividers. induction t as [|ev t IH]; [reflexivity|]. cbn [forallb].
  intros [Hev Ht]%andb_prop. rewrite filter_cons.
  destruct (decide (is_divider ev = true)) as [Hd|_]; [|auto].
  unfold not_divider in Hev. rewrite Hd in Hev. discriminate.
Qed.

(** A fragment that writes no divider, followed by one that writes [n]
    dividers when it returns and none when it raises, does the same. *)
Lemma dividers_bind {A B} (m : M A) (k : A -> M B) (n : nat) (s : World) :
  display_only not_divider m ->
  (forall a, dividers (trace (k a s)) = if returns (k a) s then n else 0) ->
  dividers (trace (bind m k s)) = if returns (bind m k) s then n else 0.
Proof.
  intros Hm Hk. destruct (Hm s) as [Hw Ht]. rewrite returns_bind by exact Hw.
  unfold bind. destruct (m s) as [t s' [a|e]]; cbn [world trace outcome] in *.
  - subst s'. specialize (Hk a). destruct (k a s) as [t' s'' o]; cbn [trace] in *.
    rewrite dividers_app, (dividers_none _ Ht), Hk. reflexivity.
  - apply dividers_none, Ht.
Qed.

Lemma render_entry_dividers (entry : PyVal) (s : World) :
  dividers (trace (render_entry entry s)) = if returns (render_entry entry) s then 1 else 0.
Proof.
  unfold render_entry.
  repeat (apply dividers_bind;
          [first [ apply display_only_emit; reflexivity
                 | apply display_only_eval
                 | apply display_only_render_sources; reflexivity
                 | apply display_only_render_queries; reflexivity
                 | apply display_only_render_reflections; reflexivity ]
          | intros ?]).
  reflexivity.
Qed.

Lemma for_each_render_entry_dividers (h : list PyVal) (s : World) :
  dividers (trace (for_each h render_entry s)) = length (renderable_prefix h).
Proof.
  induction h as [|entry h IH]; [reflexivity|]. cbn [for_each renderable_prefix].
  pose proof (render_entry_dividers entry s) as Hd.
  pose proof (render_entry_world entry s) as Hw.
  pose proof (returns_render_entry entry s) as Hr. rewrite <- Hr. clear Hr.
  unfold bind, returns in *.
  destruct (render_entry entry s) as [t s' [[]|e]]; cbn [trace world outcome] in *.
  - subst s'. destruct (for_each h render_entry s) as [t' s'' o]; cbn [trace] in *.
    rewrite dividers_app, Hd, IH. reflexivity.
  - exact Hd.
Qed.

(** X16.  The display closes every entry it shows completely with one
    divider, so the dividers on the page count the entries in front of the
    first one that cannot be displayed: all of them when the display
    returns. *)
Theorem one_divider_per_displayed_entry (s : World) (h : list PyVal) :
  history_of s = Some h ->
  dividers (trace (display_history s)) = length (renderable_prefix h).
Proof.
  intros Hh. rewrite (display_history_run _ _ Hh).
  rewrite <- (for_each_render_entry_dividers h s). unfold bind, emit.
  destruct (truthy (PyList h)); cbn [ret]; destruct (for_each h render_entry s);
    reflexivity.
Qed.

Lemma one_divider_per_displayed_entry_witness :
  dividers
    (trace (display_history
              (world (interaction backend_ready filled_form fresh_session))))
    = length (renderable_prefix [history_entry filled_form sample_result sample_answer]).
Proof.
  apply (one_divider_per_displayed_entry
           (world (interaction backend_ready filled_form fresh_session))
           [history_entry filled_form sample_result sample_answer]).
  vm_compute. reflexivity.
Defined.

Lemma page_top_outcome (w : Widgets) (s : World) :
  outcome (page_top w s) = outcome (display_history (world_at_display w s)).
Proof. rewrite page_top_run. destruct (display_history _). reflexivity. Qed.

Lemma page_top_returns (w : Widgets) (s : World) (h : list PyVal) :
  history_at_start s = Some h ->
  (forall entry, entry ∈ h -> entry_renderable entry = true) ->
  exists t, page_top w s = mkRun t (world_at_display w s) (Returned tt).
Proof.
  intros Hh Hok. pose proof (page_top_outcome w s) as Ho.
  pose proof (page_top_world w s) as Hw.
  pose proof (returns_display_history _ _ (world_at_display_history w s h Hh)) as Hr.
  rewrite (proj2 (forallb_elem_of _ _) Hok) in Hr. unfold returns in Hr.
  rewrite <- Ho in Hr.
  destruct (page_top w s) as [t s' [[]|e]]; cbn [world outcome] in *; [|discriminate].
  subst s'. eauto.
Qed.



Lemma errors_shown_none (t : list Event) :
  forallb (fun ev => match ev with EvError _ => false | _ => true end) t = true ->
  errors_shown t = [].
Proof.
  unfold errors_shown. induction t as [|ev t IH]; [reflexivity|]. cbn [forallb omap].
  intros [Hev Ht]%andb_prop. destruct ev; try discriminate Hev; cbn; auto.
Qed.


(** ** What the display shows, and in which order *)

Lemma emit_bind_run {B} (ev : Event) (k : unit -> M B) (s : World) :
  bind (emit ev) k s =
    match k tt s with
    | mkRun t s' o => mkRun (ev :: t) s' o
    end.
Proof. reflexivity. Qed.

Lemma questions_shown_no_chat (t1 t2 : list Event) :
  forallb not_chat t1 = true -> questions_shown (t1 ++ t2) = questions_shown t2.
Proof.
  induction t1 as [|ev t1 IH]; [reflexivity|]. cbn [forallb].
  intros [Hev Ht]%andb_prop. destruct ev; try discriminate Hev; cbn; auto.
Qed.

Lemma questions_shown_assistant (t : list Event) :
  questions_shown (EvChatMessage "assistant" :: t) = questions_shown t.
Proof. destruct t as [|[] t]; reflexivity. Qed.

Lemma questions_shown_user (q : string) (t : list Event) :
  questions_shown (EvChatMessage "user" :: EvMarkdown q :: t) = q :: questions_shown t.
Proof. reflexivity. Qed.

Lemma questions_shown_entry (q : string) (rest t : list Event) :
  forallb not_chat rest = true ->
  questions_shown
    ((EvChatMessage "user" :: EvMarkdown q :: EvChatMessage "assistant" :: rest) ++ t)
    = q :: questions_shown t.
Proof.
  intros Hrest. cbn [app]. rewrite questions_shown_user.
  rewrite questions_shown_assistant, questions_shown_no_chat by exact Hrest.
  reflexivity.
Qed.

(** An entry writes the bubble of the user and, when it has one, its
    question in it; what follows the bubble of the assistant is text and
    dividers. *)
Lemma render_entry_shape (entry : PyVal) (s : World) :
  (question_text entry = None /\
   exists e, render_entry entry s = mkRun [EvChatMessage "user"] s (Raised e)) \/
  (exists q rest o,
     question_text entry = Some q /\
     forallb not_chat rest = true /\
     render_entry entry s =
       mkRun (EvChatMessage "user" :: EvMarkdown q :: EvChatMessage "assistant" :: rest)
             s o).
Proof.
  unfold render_entry, question_text. rewrite emit_bind_run.
  destruct (getitem entry "question") as [question|e]; cbn [eval].
  - right. rewrite ret_bind, !emit_bind_run.
    match goal with
    | |- context [bind (eval (getitem entry "answer")) ?k s] =>
        assert (display_only not_chat (bind (eval (getitem entry "answer")) k)) as Htail
    end.
    { repeat first [ apply display_only_render_sources
                   | apply display_only_render_queries
                   | apply display_only_render_reflections
                   | display_only_step ]; reflexivity. }
    destruct (Htail s) as [Hw Ht].
    destruct (bind (eval (getitem entry "answer")) _ s) as [rest s' o];
      cbn [world trace] in *. subst s'.
    exists (str question), rest, o. auto.
  - left. split; [reflexivity|]. exists e. reflexivity.
Qed.

Lemma questions_of_cons_some (entry : PyVal) (h : list PyVal) (q : string) :
  question_text entry = Some q -> questions_of (entry :: h) = q :: questions_of h.
Proof.
  intros Hq.
  change (questions_of (entry :: h))
    with (match question_text entry with
          | Some q' => q' :: questions_of h
          | None => questions_of h
          end).
  rewrite Hq. reflexivity.
Qed.

(** The questions shown by the loop over the history are the questions of
    the entries, from the first one on: all of them when the loop returns. *)
Lemma for_each_questions (h : list PyVal) (s : World) :
  questions_shown (trace (for_each h render_entry s)) `prefix_of` questions_of h /\
  (returns (for_each h render_entry) s = true ->
   questions_shown (trace (for_each h render_entry s)) = questions_of h).
Proof.
  induction h as [|entry h [IHp IHr]]; [split; [apply prefix_nil | reflexivity]|].
  cbn [for_each]. unfold returns, bind in *.
  destruct (render_entry_shape entry s)
    as [(Hq & e & ->) | (q & rest & o & Hq & Hrest & ->)].
  - split; [apply prefix_nil | discriminate].
  - rewrite (questions_of_cons_some _ _ _ Hq). destruct o as [[]|e].
    + destruct (for_each h render_entry s) as [t' s' o']; cbn [trace outcome] in *.
      rewrite questions_shown_entry by exact Hrest.
      split; [apply prefix_cons, IHp | intros Hr; f_equal; apply IHr, Hr].
    + cbn [trace outcome]. split; [|discriminate].
      rewrite <- (app_nil_r (_ :: _ :: _ :: rest)).
      rewrite questions_shown_entry by exact Hrest. apply prefix_cons, prefix_nil.
Qed.

Lemma display_history_questions (s : World) (h : list PyVal) :
  history_of s = Some h ->
  questions_shown (trace (display_history s)) `prefix_of` questions_of h /\
  (returns display_history s = true ->
   questions_shown (trace (display_history s)) = questions_of h).
Proof.
  intros Hh. destruct (for_each_questions h s) as [Hp Hr].
  unfold returns in *. rewrite (display_history_run _ _ Hh).
  unfold bind, emit, ret.
  destruct (truthy (PyList h));
    destruct (for_each h render_entry s) as [t s' o]; cbn [trace outcome] in *;
    split; assumption.
Qed.

Lemma questions_of_app_entry (w : Widgets) (result answer : PyVal) (h : list PyVal) :
  questions_of (h ++ [history_entry w result answer]) = questions_of h ++ [user_question w].
Proof. unfold questions_of. rewrite omap_app. reflexivity. Qed.

Lemma second_submission_succeeds :
  submission_succeeds backend_ready second_form 3 2
    (world_at_display second_form session_with_one_entry) sample_result sample_answer
    [history_entry filled_form sample_result sample_answer].
Proof.
  unfold submission_succeeds.
  split; [reflexivity|]. split; [discriminate|]. split; [discriminate|].
  split; [reflexivity|]. split; [eexists; split; reflexivity|].
  split; [eexists _, _; repeat split; reflexivity|].
  vm_compute. reflexivity.
Qed.

(** C5.  Every successful submission appends exactly one entry, holding the
    submitted question and the returned answer, sources, queries and
    reflections, at the end of [st.session_state.history]; the entries
    stored before keep their content and their position; and the next
    display of the history goes through the old entries in their order, then
    the new one: the questions it shows are the stored questions in the
    order of the history, the submitted one last, all of them when the
    display returns and those in front of the entry it stops at
    otherwise. *)
Theorem history_accumulates_in_order (backend : Backend) (w : Widgets) (nq mrl : Z)
    (s : World) (result answer : PyVal) (h : list PyVal) :
  submission_succeeds backend w nq mrl s result answer h ->
  exists s' entry h',
    world (handle_submission backend w nq mrl s) = s' /\
    history_of s' = Some h' /\
    h' = h ++ [entry] /\
    entry = PyDict [("question", PyStr (user_question w));
                    ("answer", answer);
                    ("sources", field_or_empty result "sources_gathered");
                    ("queries", field_or_empty result "generated_queries");
                    ("reflections", field_or_empty result "reflection_notes")] /\
    length h' = S (length h) /\
    (forall i, (i < length h)%nat -> h' !! i = h !! i) /\
    display_history s' =
      (emit (EvSubheader "Conversation History") ;;
       for_each h render_entry ;;
       render_entry entry) s' /\
    questions_shown (trace (display_history s'))
      `prefix_of` questions_of h ++ [user_question w] /\
    (returns display_history s' = true ->
     questions_shown (trace (display_history s')) = questions_of h ++ [user_question w]).
Proof.
  intros Hok. rewrite (handle_submission_succeeds _ _ _ _ _ _ _ _ Hok).
  exists (mkWorld (session_after_success w result answer h (session_state s))
                  (environ_with_key w s)),
    (history_entry w result answer), (h ++ [history_entry w result answer]).
  split; [reflexivity|].
  assert (history_of
            (mkWorld (session_after_success w result answer h (session_state s))
                     (environ_with_key w s))
          = Some (h ++ [history_entry w result answer])) as Hh.
  { unfold history_of. cbn [session_state]. rewrite session_after_success_history.
    reflexivity. }
  split; [exact Hh|]. split; [reflexivity|]. split; [reflexivity|].
  split; [rewrite length_app; cbn; lia|].
  split; [intros i Hi; apply lookup_app_l, Hi|].
  split.
  - rewrite (display_history_run _ _ Hh).
    apply bind_ext. intros _ s1.
    replace (truthy (PyList (h ++ [history_entry w result answer]))) with true.
    + rewrite ret_bind. apply for_each_app_last.
    + cbn [truthy]. rewrite length_app, bool_decide_eq_false_2; [reflexivity|].
      cbn. lia.
  - rewrite <- (questions_of_app_entry w result answer h).
    apply display_history_questions, Hh.
Qed.

Lemma history_accumulates_in_order_witness :
  exists s' entry h',
    world (handle_submission backend_ready second_form 3 2
             (world_at_display second_form session_with_one_entry)) = s' /\
    history_of s' = Some h' /\
    h' = [history_entry filled_form sample_result sample_answer] ++ [entry] /\
    entry = PyDict [("question", PyStr (user_question second_form));
                    ("answer", sample_answer);
                    ("sources", field_or_empty sample_result "sources_gathered");
                    ("queries", field_or_empty sample_result "generated_queries");
                    ("reflections", field_or_empty sample_result "reflection_notes")] /\
    length h' = S (length [history_entry filled_form sample_result sample_answer]) /\
    (forall i,
       (i < length [history_entry filled_form sample_result sample_answer])%nat ->
       h' !! i = [history_entry filled_form sample_result sample_answer] !! i) /\
    display_history s' =
      (emit (EvSubheader "Conversation History") ;;
       for_each [history_entry filled_form sample_result sample_answer] render_entry ;;
       render_entry entry) s' /\
    questions_shown (trace (display_history s'))
      `prefix_of`
      questions_of [history_entry filled_form sample_result sample_answer]
        ++ [user_question second_form] /\
    (returns display_history s' = true ->
     questions_shown (trace (display_history s'))
       = questions_of [history_entry filled_form sample_result sample_answer]
           ++ [user_question second_form]).
Proof.
  apply (history_accumulates_in_order backend_ready second_form 3 2
           (world_at_display second_form session_with_one_entry)
           sample_result sample_answer
           [history_entry filled_form sample_result sample_answer]).
  exact second_submission_succeeds.
Defined.

(** After the second question the page shows the two questions, the first
    one first. *)
Example two_questions_in_order :
  questions_shown
    (trace (display_history
              (world (handle_submission backend_ready second_form 3 2
                        (world_at_display second_form session_with_one_entry)))))
    = ["What is LangGraph?"; "And LangChain?"].
Proof. vm_compute. reflexivity. Qed.

(** ** The exceptions of the display *)

Lemma getitem_ordinary (v : PyVal) (k : string) : fails_only is_Exception (getitem v k).
Proof. intros e H. unfold getitem in H. repeat case_match; simplify_eq; reflexivity. Qed.

Lemma dict_get_ordinary (v : PyVal) (k : string) (d : PyVal) :
  fails_only is_Exception (dict_get v k d).
Proof. intros e H. unfold dict_get in H. repeat case_match; simplify_eq; reflexivity. Qed.

Lemma contains_ordinary (k : string) (v : PyVal) : fails_only is_Exception (contains k v).
Proof. intros e H. unfold contains in H. repeat case_match; simplify_eq; reflexivity. Qed.

Lemma iter_ordinary (v : PyVal) : fails_only is_Exception (iter v).
Proof. intros e H. unfold iter in H. repeat case_match; simplify_eq; reflexivity. Qed.

Lemma getattr_ordinary (v : PyVal) (name : string) : fails_only is_Exception (getattr v name).
Proof. intros e H. unfold getattr in H. repeat case_match; simplify_eq; reflexivity. Qed.

Lemma str_join_ordinary (sep : string) (v : PyVal) : fails_only is_Exception (str_join sep v).
Proof. intros e H. unfold str_join in H. repeat case_match; simplify_eq; reflexivity. Qed.

Lemma str_add_ordinary (s : string) (v : PyVal) : fails_only is_Exception (str_add s v).
Proof. intros e H. unfold str_add in H. repeat case_match; simplify_eq; reflexivity. Qed.

Create HintDb ordinary.
#[local] Hint Resolve getitem_ordinary dict_get_ordinary contains_ordinary iter_ordinary
  getattr_ordinary str_join_ordinary str_add_ordinary : ordinary.

Lemma raises_only_ret {A} (Q : Exn -> bool) (a : A) : raises_only Q (ret a).
Proof. intros s e H. discriminate H. Qed.

Lemma raises_only_emit (Q : Exn -> bool) (ev : Event) : raises_only Q (emit ev).
Proof. intros s e H. discriminate H. Qed.

Lemma raises_only_eval {A} (Q : Exn -> bool) (r : Res A) :
  fails_only Q r -> raises_only Q (eval r).
Proof.
  intros Hr s e H. destruct r as [a|e']; [discriminate H|].
  cbn in H. injection H as <-. apply Hr. reflexivity.
Qed.

Lemma raises_only_get_session_state (key : string) :
  raises_only is_Exception (get_session_state key).
Proof.
  intros s e H. unfold get_session_state in H.
  destruct (session_state s !! key); [discriminate H|]. cbn in H. injection H as <-.
  reflexivity.
Qed.

Lemma raises_only_bind {A B} (Q : Exn -> bool) (m : M A) (k : A -> M B) :
  raises_only Q m -> (forall a, raises_only Q (k a)) -> raises_only Q (bind m k).
Proof.
  intros Hm Hk s e H. unfold bind in H. specialize (Hm s).
  destruct (m s) as [t s' [a|e']]; cbn [outcome] in *.
  - specialize (Hk a s'). destruct (k a s') as [t' s'' o]; cbn [outcome] in *. auto.
  - injection H as <-. auto.
Qed.

Lemma raises_only_try_except {A} (Q : Exn -> bool) (body : M A)
    (handler : Exn -> option (M A)) :
  raises_only Q body ->
  (forall e h, handler e = Some h -> raises_only Q h) ->
  raises_only Q (try_except body handler).
Proof.
  intros Hb Hh s e H. unfold try_except in H. specialize (Hb s).
  destruct (body s) as [t s' [a|e']]; cbn [outcome] in *; [discriminate H|].
  destruct (handler e') as [h|] eqn:He'.
  - specialize (Hh e' h He' s'). destruct (h s') as [t' s'' o]; cbn [outcome] in *. auto.
  - cbn [outcome] in H. injection H as <-. auto.
Qed.

Lemma raises_only_for_each {A} (Q : Exn -> bool) (xs : list A) (body : A -> M unit) :
  (forall x, raises_only Q (body x)) -> raises_only Q (for_each xs body).
Proof.
  intros Hbody. induction xs as [|x xs IH]; cbn [for_each].
  - apply raises_only_ret.
  - apply raises_only_bind; [apply Hbody | intros _; exact IH].
Qed.

Lemma raises_only_for_each_indexed {A} (Q : Exn -> bool) (xs : list A)
    (body : Z -> A -> M unit) (i : Z) :
  (forall j x, raises_only Q (body j x)) -> raises_only Q (for_each_indexed i xs body).
Proof.
  intros Hbody. revert i. induction xs as [|x xs IH]; intros i; cbn [for_each_indexed].
  - apply raises_only_ret.
  - apply raises_only_bind; [apply Hbody | intros _; apply IH].
Qed.

Ltac raises_only_step :=
  lazymatch goal with
  | |- raises_only _ (bind _ _) => apply raises_only_bind; [|intros ?]
  | |- raises_only _ (ret _) => apply raises_only_ret
  | |- raises_only _ (emit _) => apply raises_only_emit
  | |- raises_only _ (eval _) => apply raises_only_eval; auto with ordinary
  | |- raises_only _ (get_session_state _) => apply raises_only_get_session_state
  | |- raises_only _ (for_each _ _) => apply raises_only_for_each; intros ?
  | |- raises_only _ (for_each_indexed _ _ _) =>
      apply raises_only_for_each_indexed; intros ? ?
  | |- raises_only _ (try_except _ _) => apply raises_only_try_except; [|intros ? ? ?]
  | |- raises_only _ (if ?b then _ else _) => destruct b
  end.

(** What the display raises is an ordinary exception: never the rerun
    request, never an interrupt. *)
Lemma display_history_raises_ordinary : raises_only is_Exception display_history.
Proof.
  unfold display_history, render_entry, render_sources, render_queries,
    render_reflections, render_source, render_query, render_query_object,
    render_reflection.
  repeat raises_only_step.
  all: match goal with
       | H : (if ?b then _ else _) = Some _ |- _ =>
           destruct b; [injection H as <- | discriminate H]
       end.
  all: apply raises_only_emit.
Qed.

Lemma forallb_false_elem_of {A} (f : A -> bool) (xs : list A) (x : A) :
  x ∈ xs -> f x = false -> forallb f xs = false.
Proof.
  intros Hx Hf. destruct (forallb f xs) eqn:Hall; [|reflexivity].
  rewrite (proj1 (forallb_elem_of f xs) Hall x Hx) in Hf. discriminate Hf.
Qed.

Lemma page_top_not_error (w : Widgets) (s : World) :
  forallb (fun ev => match ev with EvError _ => false | _ => true end)
          (trace (page_top w s)) = true.
Proof. apply page_top_trace; done. Qed.

(** X14.  A session that holds one entry the display cannot show is stuck:
    whatever the widgets and the backend, every interaction raises in the
    display before the handler is reached, so that no submission is
    validated or sent to the graph, no error box is written, and the history
    stays as it is, with the entry in it. *)
Theorem broken_session_stays_broken (backend : Backend) (w : Widgets) (s : World)
    (h : list PyVal) (entry : PyVal) :
  history_at_start s = Some h ->
  entry ∈ h ->
  entry_renderable entry = false ->
  (exists e, outcome (interaction backend w s) = Raised e) /\
  invocations (trace (interaction backend w s)) = [] /\
  errors_shown (trace (interaction backend w s)) = [] /\
  history_at_start (world (interaction backend w s)) = Some h.
Proof.
  intros Hh Hin Hbad.
  pose proof (world_at_display_history w s h Hh) as Hd.
  pose proof (returns_display_history _ _ Hd) as Hr.
  rewrite (forallb_false_elem_of _ _ _ Hin Hbad) in Hr. unfold returns in Hr.
  pose proof (display_history_raises_ordinary (world_at_display w s)) as Hord.
  pose proof (page_top_outcome w s) as Ho.
  pose proof (page_top_world w s) as Hw.
  pose proof (page_top_invocations w s) as Hi.
  pose proof (page_top_not_error w s) as He.
  destruct (outcome (display_history (world_at_display w s))) as [|e] eqn:Hout;
    [discriminate Hr|].
  specialize (Hord e eq_refl).
  assert (interaction backend w s = mkRun (trace (page_top w s)) (world_at_display w s)
                                           (Raised e)) as ->.
  { unfold interaction. rewrite script_run.
    destruct (page_top w s) as [t s' o]; cbn [outcome world trace] in *. subst s' o.
    destruct e as [c msg]. destruct c; try discriminate Hord; reflexivity. }
  cbn [outcome trace world].
  split; [eauto|]. split; [exact Hi|]. split; [apply errors_shown_none, He|].
  apply history_of_at_start, Hd.
Qed.

Lemma broken_session_stays_broken_witness :
  (exists e,
     outcome (interaction backend_ready second_form
                (world (interaction backend_text_reflection filled_form fresh_session)))
       = Raised e) /\
  invocations
    (trace (interaction backend_ready second_form
              (world (interaction backend_text_reflection filled_form fresh_session))))
    = [] /\
  errors_shown
    (trace (interaction backend_ready second_form
              (world (interaction backend_text_reflection filled_form fresh_session))))
    = [] /\
  history_at_start
    (world (interaction backend_ready second_form
              (world (interaction backend_text_reflection filled_form fresh_session))))
    = Some [entry_with_text_reflection].
Proof.
  apply (broken_session_stays_broken backend_ready second_form
           (world (interaction backend_text_reflection filled_form fresh_session))
           [entry_with_text_reflection] entry_with_text_reflection).
  - vm_compute. reflexivity.
  - repeat constructor.
  - reflexivity.
Defined.

Lemma world_at_display_current_present (w : Widgets) (s : World) (k : string) :
  k ∈ current_keys -> is_Some (session_state (world_at_display w s) !! k).
Proof.
  intros Hk. unfold world_at_display, current_keys in *. cbn [session_state].
  destruct (initialised_lookup (session_state s)) as (_ & Ha & Hs & Hq & Hr).
  repeat (apply elem_of_cons in Hk as [-> | Hk]);
    [rewrite !lookup_insert_ne by done; eauto ..| by apply elem_of_nil in Hk].
Qed.

Lemma current_sections_returns (s : World) :
  (forall k, k ∈ current_keys -> is_Some (session_state s !! k)) ->
  outcome (current_sections s) = Returned tt.
Proof.
  intros Hs. unfold current_sections. destruct s as [ss env]. cbn [session_state] in Hs.
  destruct elem_of_current_keys as (Ha & Hb & Hc & Hd).
  destruct (Hs _ Ha) as [va Ha']. destruct (Hs _ Hb) as [vb Hb'].
  destruct (Hs _ Hc) as [vc Hc']. destruct (Hs _ Hd) as [vd Hd'].
  run_step. rewrite Ha'. destruct (truthy va); run_step; rewrite Hb';
    destruct (truthy vb); run_step; rewrite Hc';
    destruct (truthy vc); run_step; rewrite Hd';
    destruct (truthy vd); reflexivity.
Qed.

(** X18.  A run that the submit button did not trigger never calls
    [st.error] and never calls the graph, and it leaves the world as the
    initialisation and the widgets set it; when every stored entry can be
    displayed it also returns normally, so that nothing at all is reported:
    only a submission can report an error or change the history. *)
Theorem run_without_submit_is_quiet (backend : Backend) (w : Widgets) (s : World) :
  submit_button w = false ->
  errors_shown (trace (script backend w s)) = [] /\
  invocations (trace (script backend w s)) = [] /\
  world (script backend w s) = world_at_display w s /\
  (forall h,
     history_at_start s = Some h ->
     (forall entry, entry ∈ h -> entry_renderable entry = true) ->
     outcome (script backend w s) = Returned tt).
Proof.
  intros Hsub. split; [|split; [|split]].
  - apply errors_shown_none. rewrite script_run.
    pose proof (page_top_not_error w s) as Hp.
    destruct (page_top w s) as [t1 s1 [[]|e]]; cbn [trace] in *; [|exact Hp].
    rewrite (handle_submission_not_submitted _ _ _ _ _ Hsub).
    destruct (display_only_current_sections
                (fun ev => match ev with EvError _ => false | _ => true end)
                ltac:(done) ltac:(done) s1) as [_ Hc].
    destruct (current_sections s1) as [t3 s3 o]; cbn [trace app] in *.
    rewrite forallb_app, Hp, Hc. reflexivity.
  - rewrite script_invocations. unfold calls_graph. rewrite Hsub, andb_comm. reflexivity.
  - destruct (script_world backend w s) as [-> | ->]; [reflexivity|].
    rewrite (handle_submission_not_submitted _ _ _ _ _ Hsub). reflexivity.
  - intros h Hh Hall. rewrite script_run.
    destruct (page_top_returns w s h Hh Hall) as [t1 ->].
    rewrite (handle_submission_not_submitted _ _ _ _ _ Hsub).
    pose proof (current_sections_returns (world_at_display w s)
                  (world_at_display_current_present w s)) as Hc.
    destruct (current_sections (world_at_display w s)) as [t3 s3 o]; exact Hc.
Qed.

Lemma run_without_submit_is_quiet_witness :
  errors_shown (trace (script backend_missing (without_submit second_form)
                         session_with_one_entry)) = [] /\
  invocations (trace (script backend_missing (without_submit second_form)
                        session_with_one_entry)) = [] /\
  world (script backend_missing (without_submit second_form) session_with_one_entry)
    = world_at_display (without_submit second_form) session_with_one_entry /\
  outcome (script backend_missing (without_submit second_form) session_with_one_entry)
    = Returned tt.
Proof.
  pose proof (run_without_submit_is_quiet backend_missing (without_submit second_form)
              session_with_one_entry eq_refl) as H.
  split; [exact (proj1 H)|]. split; [exact (proj1 (proj2 H))|].
  split; [exact (proj1 (proj2 (proj2 H)))|].
  refine (proj2 (proj2 (proj2 H)) [history_entry filled_form sample_result sample_answer]
            _ _).
  - vm_compute. reflexivity.
  - intros entry [-> | H']%elem_of_cons; [reflexivity | by apply elem_of_nil in H'].
Defined.

(** In the session the first question left, a run without submission shows
    the page and returns. *)
Example quiet_run_returns :
  outcome (script backend_missing (without_submit second_form) session_with_one_entry)
    = Returned tt.
Proof. vm_compute. reflexivity. Qed.
